(** * A shallow embedding of the project CRUD backend ([src/main.py])

    The development follows the source file top to bottom: the values a
    document can hold, the identifier codec ([bson.ObjectId]), the
    serialization helper [serialize_doc], the pydantic models, the store
    handle, and finally the request handlers.  Effects (the process-wide
    [db] handle, the clock, the environment, raised exceptions) are threaded
    through a small state-and-exception monad. *)

From stdpp Require Import base option list strings pretty gmap fin_maps.

Local Open Scope string_scope.

(** ** Strings

    A [string] holds the UTF-8 bytes of a Python [str].  Python counts and
    slices by character: a character begins at every byte that is not a
    continuation byte [10xxxxxx]. *)

Definition is_continuation (c : Ascii.ascii) : bool :=
  match c with
  | Ascii.Ascii _ _ _ _ _ _ b6 b7 => b7 && negb b6
  end.

(** Python's [len(s)] on a string. *)
Fixpoint py_len (s : string) : nat :=
  match s with
  | EmptyString => O
  | String c s' => if is_continuation c then py_len s' else S (py_len s')
  end.

(** Python's [s[:n]] on a string: the first [n] characters, each with all of
    its bytes. *)
Fixpoint str_prefix (n : nat) (s : string) : string :=
  match s with
  | EmptyString => EmptyString
  | String c s' =>
      if is_continuation c then String c (str_prefix n s')
      else
        match n with
        | O => EmptyString
        | S n' => String c (str_prefix n' s')
        end
  end.

Arguments str_prefix : simpl never.

(** ** The identifier codec

    [bson.ObjectId] is a library type.  The handlers only use three of its
    operations, which are kept abstract here: the class below is the
    interface, and [Hex24.hex24] further down is the 24-hex-digit
    instance the scenario runs on. *)

Class Bson := {
  ObjectId : Type;
  ObjectId_eq_dec :: EqDecision ObjectId;
  ObjectId_countable :: Countable ObjectId;
  (** [ObjectId.is_valid(s)] *)
  is_valid : string → bool;
  (** [ObjectId(s)], called only after [is_valid] *)
  ObjectId_of_str : string → ObjectId;
  (** [str(oid)] *)
  ObjectId_str : ObjectId → string;
}.

(** ** Timestamps

    [datetime.datetime], with [tz_utc] telling an aware value in
    [timezone.utc] from a naive one. *)

Record datetime := Datetime {
  year : N; month : N; day : N;
  hour : N; minute : N; second : N;
  microsecond : N;
  tz_utc : bool;
}.

#[global] Instance datetime_eq_dec : EqDecision datetime.
Proof. solve_decision. Defined.

(** Zero-padded decimal, as [%0<width>d]. *)
Fixpoint zeros (n : nat) : string :=
  match n with O => "" | S n' => "0" +:+ zeros n' end.

Definition zfill (width : nat) (n : N) : string :=
  let s := pretty n in
  zeros (width - String.length s) +:+ s.

Definition datetime_format (sep : string) (t : datetime) : string :=
  zfill 4 (year t) +:+ "-" +:+ zfill 2 (month t) +:+ "-" +:+ zfill 2 (day t)
  +:+ sep
  +:+ zfill 2 (hour t) +:+ ":" +:+ zfill 2 (minute t) +:+ ":" +:+ zfill 2 (second t)
  +:+ (if (microsecond t =? 0)%N then "" else "." +:+ zfill 6 (microsecond t))
  +:+ (if tz_utc t then "+00:00" else "").

(** [t.isoformat()] *)
Definition isoformat (t : datetime) : string := datetime_format "T" t.

(** [str(t)] *)
Definition datetime_str (t : datetime) : string := datetime_format " " t.

(** ** Exceptions and the handler monad *)

Inductive exn :=
  | HTTPException (status_code : Z) (detail : string)
  (** raised by the framework when a request body fails its model *)
  | RequestValidationError (msg : string)
  (** any other exception: its class and its [str(e)] *)
  | Error (cls : string) (msg : string).

#[global] Instance exn_eq_dec : EqDecision exn.
Proof. solve_decision. Defined.

(** [str(e)] *)
Definition exn_str (e : exn) : string :=
  match e with
  | HTTPException c d => pretty c +:+ ": " +:+ d
  | RequestValidationError msg => msg
  | Error _ msg => msg
  end.

(** What the framework answers: the raised [HTTPException]'s status, 422 for
    a body that fails validation, 500 for an unhandled exception, 200
    otherwise. *)
Definition status_of {A} (r : exn + A) : Z :=
  match r with
  | inr _ => 200
  | inl (HTTPException c _) => c
  | inl (RequestValidationError _) => 422
  | inl (Error _ _) => 500
  end.

(** A computation over a state [S] that returns or raises; what it did to
    the state before raising stays done. *)
Definition St (S A : Type) : Type := S → (exn + A) * S.

#[global] Instance St_ret {S} : MRet (St S) := λ A a s, (inr a, s).

#[global] Instance St_bind {S} : MBind (St S) := λ A B f m s,
  match m s with
  | (inl e, s') => (inl e, s')
  | (inr a, s') => f a s'
  end.

Definition raise {S A} (e : exn) : St S A := λ s, (inl e, s).
Definition gets {S A} (f : S → A) : St S A := λ s, (inr (f s), s).
Definition modify {S} (f : S → S) : St S unit := λ s, (inr (), f s).

(** [try: body / except Exception as e: handler(e)] *)
Definition try_except {S A} (body : St S A) (handler : exn → St S A) : St S A := λ s,
  match body s with
  | (inl e, s') => handler e s'
  | r => r
  end.

Section Backend.
Context `{!Bson}.

(** ** Values and documents *)

(** What a field of a stored document, of a request body or of a patch can
    hold.  A JSON request body only produces [VNone], [VBool], [VInt] and
    [VStr]. *)
Inductive value :=
  | VNone
  | VBool (b : bool)
  | VInt (n : Z)
  | VStr (s : string)
  | VObjectId (o : ObjectId)
  | VDatetime (t : datetime).

#[global] Instance value_eq_dec : EqDecision value.
Proof. solve_decision. Defined.

(** A Python [dict] with string keys. *)
Abbreviation document := (gmap string value).

(** [str(v)] *)
Definition py_str (v : value) : string :=
  match v with
  | VNone => "None"
  | VBool true => "True"
  | VBool false => "False"
  | VInt n => pretty n
  | VStr s => s
  | VObjectId o => ObjectId_str o
  | VDatetime t => datetime_str t
  end.

(** [v is None] *)
Definition is_none (v : value) : bool :=
  match v with VNone => true | _ => false end.

(** [not doc], for [doc] a dict or [None]. *)
Definition falsy (doc : option document) : bool :=
  match doc with
  | None => true
  | Some d => bool_decide (d = ∅)
  end.

(** ** Utils *)

(** [PyObjectId.validate(v)].  Among the values, [ObjectId.is_valid] can only
    accept a string: it answers false for [None] and catches the [TypeError]
    that [ObjectId(v)] raises for a bool, an int or a datetime. *)
Definition PyObjectId_validate (v : value) : exn + ObjectId :=
  match v with
  | VObjectId o => inr o
  | VStr s =>
      if negb (is_valid s) then inl (Error "ValueError" "Invalid ObjectId")
      else inr (ObjectId_of_str s)
  | _ => inl (Error "ValueError" "Invalid ObjectId")
  end.

(** ** [serialize_doc] *)

(** One turn of the loop [for k, v in list(d.items())]: only a [datetime]
    answers [hasattr(v, "isoformat")]. *)
Definition isoformat_step (d : document) (kv : string * value) : document :=
  match kv.2 with
  | VDatetime t => <[kv.1 := VStr (isoformat t)]> d
  | _ => d
  end.

Definition serialize_doc (doc : option document) : option document :=
  if falsy doc then doc
  else
    let d := default ∅ doc in
    let _id := default VNone (d !! "_id") in
    let d := delete "_id" d in
    let d := if is_none _id then d else <["id" := VStr (py_str _id)]> d in
    Some (foldl isoformat_step d (map_to_list d)).

(** ** Models

    The pydantic models.  A request body and the keyword arguments of a
    model constructor are both a [document]; validation yields the model or
    fails. *)

(** [Field(..., min_length=, max_length=)] on a string: the bounds are on
    the number of characters. *)
Definition length_ok (min_length max_length : option nat) (s : string) : bool :=
  from_option (λ m, bool_decide (m ≤ py_len s)%nat) true min_length
  && from_option (λ m, bool_decide (py_len s ≤ m)%nat) true max_length.

(** A field annotated [str]. *)
Definition str_field (min_length max_length : option nat) (v : value) : option string :=
  match v with
  | VStr s => if length_ok min_length max_length s then Some s else None
  | _ => None
  end.

(** A field annotated [Optional[str]]: the bounds apply to strings only. *)
Definition optional_str_field (min_length max_length : option nat) (v : value)
  : option (option string) :=
  match v with
  | VNone => Some None
  | _ => Some <$> str_field min_length max_length v
  end.

Definition optional_str_value (o : option string) : value :=
  match o with None => VNone | Some s => VStr s end.

Record ProjectCreate := {
  pc_name : string;
  pc_description : option string;
  pc_status : string;
  pc_owner_email : option string;
  pc_due_date : option string;
}.

#[global] Instance ProjectCreate_eq_dec : EqDecision ProjectCreate.
Proof. solve_decision. Defined.

(** An absent key takes the field's default, which is not validated. *)
Definition ProjectCreate_validate (body : document) : option ProjectCreate :=
  name ← body !! "name" ≫= str_field (Some 1%nat) (Some 120%nat);
  description ←
    from_option (optional_str_field None (Some 2000%nat)) (Some None) (body !! "description");
  status ← from_option (str_field None None) (Some "active") (body !! "status");
  owner_email ← from_option (optional_str_field None None) (Some None) (body !! "owner_email");
  due_date ← from_option (optional_str_field None None) (Some None) (body !! "due_date");
  Some {| pc_name := name; pc_description := description; pc_status := status;
          pc_owner_email := owner_email; pc_due_date := due_date |}.

(** [payload.model_dump()] *)
Definition ProjectCreate_model_dump (p : ProjectCreate) : document :=
  <["name" := VStr (pc_name p)]>
  (<["description" := optional_str_value (pc_description p)]>
  (<["status" := VStr (pc_status p)]>
  (<["owner_email" := optional_str_value (pc_owner_email p)]>
  (<["due_date" := optional_str_value (pc_due_date p)]> ∅)))).

(** Every field of [ProjectUpdate] is [Optional[str]] with default [None];
    the outer [option] records whether the field was set by the request
    ([model_fields_set]). *)
Record ProjectUpdate := {
  pu_name : option (option string);
  pu_description : option (option string);
  pu_status : option (option string);
  pu_owner_email : option (option string);
  pu_due_date : option (option string);
}.

#[global] Instance ProjectUpdate_eq_dec : EqDecision ProjectUpdate.
Proof. solve_decision. Defined.

Definition update_field (min_length max_length : option nat) (o : option value)
  : option (option (option string)) :=
  match o with
  | None => Some None
  | Some v => Some <$> optional_str_field min_length max_length v
  end.

Definition ProjectUpdate_validate (body : document) : option ProjectUpdate :=
  name ← update_field (Some 1%nat) (Some 120%nat) (body !! "name");
  description ← update_field None (Some 2000%nat) (body !! "description");
  status ← update_field None None (body !! "status");
  owner_email ← update_field None None (body !! "owner_email");
  due_date ← update_field None None (body !! "due_date");
  Some {| pu_name := name; pu_description := description; pu_status := status;
          pu_owner_email := owner_email; pu_due_date := due_date |}.

Definition dump_if_set (k : string) (f : option (option string)) (d : document) : document :=
  match f with
  | None => d
  | Some v => <[k := optional_str_value v]> d
  end.

(** [payload.model_dump(exclude_unset=True)] *)
Definition ProjectUpdate_model_dump_exclude_unset (p : ProjectUpdate) : document :=
  dump_if_set "name" (pu_name p)
  (dump_if_set "description" (pu_description p)
  (dump_if_set "status" (pu_status p)
  (dump_if_set "owner_email" (pu_owner_email p)
  (dump_if_set "due_date" (pu_due_date p) ∅)))).

(** The fields of [ProjectUpdate], and the one a key names. *)
Definition ProjectUpdate_fields : list string :=
  ["name"; "description"; "status"; "owner_email"; "due_date"].

Definition ProjectUpdate_get (p : ProjectUpdate) (k : string) : option (option string) :=
  if decide (k = "name") then pu_name p
  else if decide (k = "description") then pu_description p
  else if decide (k = "status") then pu_status p
  else if decide (k = "owner_email") then pu_owner_email p
  else if decide (k = "due_date") then pu_due_date p
  else None.

(** [ProjectOut(ProjectCreate)] adds [id], [created_at], [updated_at]. *)
Record ProjectOut := {
  po_name : string;
  po_description : option string;
  po_status : string;
  po_owner_email : option string;
  po_due_date : option string;
  po_id : string;
  po_created_at : option string;
  po_updated_at : option string;
}.

#[global] Instance ProjectOut_eq_dec : EqDecision ProjectOut.
Proof. solve_decision. Defined.

Definition ProjectOut_validate (kwargs : document) : option ProjectOut :=
  base ← ProjectCreate_validate kwargs;
  id ← kwargs !! "id" ≫= str_field None None;
  created_at ← from_option (optional_str_field None None) (Some None) (kwargs !! "created_at");
  updated_at ← from_option (optional_str_field None None) (Some None) (kwargs !! "updated_at");
  Some {| po_name := pc_name base; po_description := pc_description base;
          po_status := pc_status base; po_owner_email := pc_owner_email base;
          po_due_date := pc_due_date base; po_id := id;
          po_created_at := created_at; po_updated_at := updated_at |}.

(** The constructor call of [ProjectOut] on an unpacked dict: unpacking
    [None] is a [TypeError], a document that does not fit the model a
    [ValidationError]. *)
Definition ProjectOut_new {S} (kwargs : option document) : St S ProjectOut :=
  match kwargs with
  | None => raise (Error "TypeError" "argument after ** must be a mapping, not NoneType")
  | Some kw =>
      match ProjectOut_validate kw with
      | Some p => mret p
      | None => raise (Error "ValidationError" "validation error for ProjectOut")
      end
  end.

(** ** The store

    [db] is the process-wide handle of the [database] module, [None] when no
    connection was configured.  Only the collection [COLL] is used, so the
    handle carries that collection, keyed by identifier, together with what
    the diagnostics endpoint asks of it. *)

(** Outcome of an attribute access guarded by [hasattr]. *)
Inductive attribute :=
  | AttrMissing
  | AttrValue (s : string)
  | AttrRaises (e : exn).

Record Database := {
  (** [db.name] *)
  db_name : attribute;
  (** [db.list_collection_names()] *)
  db_list_collection_names : exn + list string;
  (** [db[COLL]]: the stored fields of each document, without its [_id] *)
  db_project : gmap ObjectId document;
}.

#[global] Instance attribute_eq_dec : EqDecision attribute.
Proof. solve_decision. Defined.

#[global] Instance Database_eq_dec : EqDecision Database.
Proof. solve_decision. Defined.

(** A call on [db[COLL]]. *)
Inductive store_call :=
  (** the read of [get_documents] *)
  | Find (limit : Z)
  | InsertOne (doc : document)
  | FindOne (oid : ObjectId)
  | FindOneAndUpdate (oid : ObjectId) (changes : document)
  | DeleteOne (oid : ObjectId).

#[global] Instance store_call_eq_dec : EqDecision store_call.
Proof. solve_decision. Defined.

Record World := {
  db : option Database;
  (** [os.environ] *)
  environ : gmap string string;
  (** what [datetime.now(timezone.utc)] answers *)
  clock : datetime;
  (** the identifiers the store assigns, and how many it has assigned *)
  oid_gen : nat → ObjectId;
  oid_count : nat;
  (** the calls made on [db[COLL]], oldest first *)
  calls : list store_call;
}.

Definition COLL : string := "project".

Definition with_db (d : option Database) (w : World) : World :=
  {| db := d; environ := environ w; clock := clock w; oid_gen := oid_gen w;
     oid_count := oid_count w; calls := calls w |}.

Definition with_project (c : gmap ObjectId document) (w : World) : World :=
  with_db ((λ d, {| db_name := db_name d;
                    db_list_collection_names := db_list_collection_names d;
                    db_project := c |}) <$> db w) w.

Definition with_call (op : store_call) (w : World) : World :=
  {| db := db w; environ := environ w; clock := clock w; oid_gen := oid_gen w;
     oid_count := oid_count w; calls := calls w ++ [op] |}.

Definition with_oid_count (n : nat) (w : World) : World :=
  {| db := db w; environ := environ w; clock := clock w; oid_gen := oid_gen w;
     oid_count := n; calls := calls w |}.

(** [db[COLL]]: subscripting [None] raises. *)
Definition collection : St World (gmap ObjectId document) := λ w,
  match db w with
  | Some d => (inr (db_project d), w)
  | None => (inl (Error "TypeError" "'NoneType' object is not subscriptable"), w)
  end.

(** A document as the driver hands it out. *)
Definition with_id (oid : ObjectId) (doc : document) : document :=
  <["_id" := VObjectId oid]> doc.

(** [db[COLL].find_one({"_id": oid})] *)
Definition find_one (oid : ObjectId) : St World (option document) :=
  c ← collection;
  modify (with_call (FindOne oid));;
  mret (with_id oid <$> c !! oid).

(** [db[COLL].find_one_and_update({"_id": oid}, {"$set": changes},
    return_document=True)]: the document after the update, or [None]. *)
Definition find_one_and_update (oid : ObjectId) (changes : document)
  : St World (option document) :=
  c ← collection;
  modify (with_call (FindOneAndUpdate oid changes));;
  match c !! oid with
  | None => mret None
  | Some old =>
      let new := changes ∪ old in
      modify (with_project (<[oid := new]> c));;
      mret (Some (with_id oid new))
  end.

(** [db[COLL].delete_one({"_id": oid}).deleted_count] *)
Definition delete_one (oid : ObjectId) : St World Z :=
  c ← collection;
  modify (with_call (DeleteOne oid));;
  match c !! oid with
  | None => mret 0%Z
  | Some _ => modify (with_project (delete oid c));; mret 1%Z
  end.

(** [db[COLL].insert_one(doc).inserted_id] *)
Definition insert_one (doc : document) : St World ObjectId :=
  c ← collection;
  modify (with_call (InsertOne doc));;
  oid ← gets (λ w, oid_gen w (oid_count w));
  modify (λ w, with_oid_count (S (oid_count w)) w);;
  match c !! oid with
  | Some _ => raise (Error "DuplicateKeyError" "duplicate key error")
  | None => modify (with_project (<[oid := doc]> c));; mret oid
  end.

(** Modelled from the spec: [create_document] of the [database] module, which
    is not among the sources.  It inserts the record with a server-assigned
    [created_at] and returns the newly assigned identifier; it fails when no
    connection exists. *)
Definition create_document (payload : ProjectCreate) : St World ObjectId :=
  now ← gets clock;
  insert_one (<["created_at" := VDatetime now]> (ProjectCreate_model_dump payload)).

(** Modelled from the spec: [get_documents] of the [database] module, which
    is not among the sources.  It reads the collection with an empty filter
    and returns up to [limit] documents in the store's own iteration
    order. *)
Definition get_documents (limit : Z) : St World (list document) :=
  c ← collection;
  modify (with_call (Find limit));;
  mret (take (Z.to_nat limit) ((λ kv, with_id kv.1 kv.2) <$> map_to_list c)).

(** ** Routes *)

(** [GET /] *)
Definition read_root : gmap string string :=
  {["message" := "SaaS Starter Backend is running"]}.

(** [GET /api/hello] *)
Definition hello : gmap string string :=
  {["message" := "Hello from the backend API!"]}.

(** The dict built by [test_database]. *)
Record Diagnostics := {
  backend : string;
  database : string;
  database_url : option string;
  database_name : option string;
  connection_status : string;
  collections : list string;
}.

#[global] Instance Diagnostics_eq_dec : EqDecision Diagnostics.
Proof. solve_decision. Defined.

Definition set_database (v : string) (r : Diagnostics) : Diagnostics :=
  {| backend := backend r; database := v; database_url := database_url r;
     database_name := database_name r; connection_status := connection_status r;
     collections := collections r |}.

Definition set_database_url (v : option string) (r : Diagnostics) : Diagnostics :=
  {| backend := backend r; database := database r; database_url := v;
     database_name := database_name r; connection_status := connection_status r;
     collections := collections r |}.

Definition set_database_name (v : option string) (r : Diagnostics) : Diagnostics :=
  {| backend := backend r; database := database r; database_url := database_url r;
     database_name := v; connection_status := connection_status r;
     collections := collections r |}.

Definition set_connection_status (v : string) (r : Diagnostics) : Diagnostics :=
  {| backend := backend r; database := database r; database_url := database_url r;
     database_name := database_name r; connection_status := v;
     collections := collections r |}.

Definition set_collections (v : list string) (r : Diagnostics) : Diagnostics :=
  {| backend := backend r; database := database r; database_url := database_url r;
     database_name := database_name r; connection_status := connection_status r;
     collections := v |}.

(** [os.getenv(k)] used as a condition: unset and empty are both false. *)
Definition getenv_truthy (w : World) (k : string) : bool :=
  match environ w !! k with
  | Some v => bool_decide (v ≠ "")
  | None => false
  end.

(** [db.name if hasattr(db, "name") else "✅ Connected"] *)
Definition name_or_connected (d : Database) : St Diagnostics string :=
  match db_name d with
  | AttrValue s => mret s
  | AttrMissing => mret "✅ Connected"
  | AttrRaises e => raise e
  end.

(** [db.list_collection_names()] *)
Definition list_collection_names (d : Database) : St Diagnostics (list string) :=
  match db_list_collection_names d with
  | inr names => mret names
  | inl e => raise e
  end.

(** [GET /test] *)
Definition test_database : St World Diagnostics := λ w,
  let response :=
    {| backend := "✅ Running";
       database := "❌ Not Available";
       database_url := None;
       database_name := None;
       connection_status := "Not Connected";
       collections := [] |} in
  let '(_, response) :=
    try_except
      (match db w with
       | Some d =>
           modify (set_database "✅ Available");;
           modify (set_database_url (Some "✅ Configured"));;
           name ← name_or_connected d;
           modify (set_database_name (Some name));;
           modify (set_connection_status "Connected");;
           try_except
             (collections ← list_collection_names d;
              modify (set_collections (take 10 collections));;
              modify (set_database "✅ Connected & Working"))
             (λ e, modify (set_database
                             ("⚠️  Connected but Error: " +:+ str_prefix 50 (exn_str e))))
       | None => modify (set_database "⚠️  Available but not initialized")
       end)
      (λ e, modify (set_database ("❌ Error: " +:+ str_prefix 50 (exn_str e))))
      response in
  (* Check environment variables *)
  let response :=
    set_database_url
      (Some (if getenv_truthy w "DATABASE_URL" then "✅ Set" else "❌ Not Set")) response in
  let response :=
    set_database_name
      (Some (if getenv_truthy w "DATABASE_NAME" then "✅ Set" else "❌ Not Set")) response in
  (inr response, w).

(** [GET /api/projects]; [limit] is [None] when the query parameter is
    absent. *)
Definition list_projects (limit : option Z) : St World (list ProjectOut) :=
  let limit := default 100%Z limit in
  docs ← get_documents limit;
  mapM (λ d, ProjectOut_new (serialize_doc (Some d))) docs.

(** [POST /api/projects]; [ObjectId(new_id)] on an identifier is the
    identifier. *)
Definition create_project (payload : ProjectCreate) : St World ProjectOut :=
  new_id ← create_document payload;
  doc ← find_one new_id;
  ProjectOut_new (serialize_doc doc).

(** [PUT /api/projects/{project_id}] *)
Definition update_project (project_id : string) (payload : ProjectUpdate)
  : St World ProjectOut :=
  if negb (is_valid project_id) then raise (HTTPException 400 "Invalid project id")
  else
    let changes := ProjectUpdate_model_dump_exclude_unset payload in
    if bool_decide (changes = ∅) then raise (HTTPException 400 "No changes provided")
    else
      now ← gets clock;
      let changes := <["updated_at" := VDatetime now]> changes in
      res ← find_one_and_update (ObjectId_of_str project_id) changes;
      if falsy res then raise (HTTPException 404 "Project not found")
      else ProjectOut_new (serialize_doc res).

(** [DELETE /api/projects/{project_id}]; the answer [true] stands for
    [{"ok": True}]. *)
Definition delete_project (project_id : string) : St World bool :=
  if negb (is_valid project_id) then raise (HTTPException 400 "Invalid project id")
  else
    deleted_count ← delete_one (ObjectId_of_str project_id);
    if bool_decide (deleted_count = 0%Z) then raise (HTTPException 404 "Project not found")
    else mret true.

(** The framework parses the body into the handler's model before it calls
    the handler, and answers 422 when that fails. *)
Definition with_body {P A} (validate : document → option P) (handler : P → St World A)
    (body : document) : St World A :=
  match validate body with
  | Some payload => handler payload
  | None => raise (RequestValidationError "Unprocessable Entity")
  end.

Definition post_projects : document → St World ProjectOut :=
  with_body ProjectCreate_validate create_project.

Definition put_project (project_id : string) : document → St World ProjectOut :=
  with_body ProjectUpdate_validate (update_project project_id).

(** ** Vocabulary of the statements *)

(** What the loop of [serialize_doc] makes of one value. *)
Definition rendered (v : value) : value :=
  match v with
  | VDatetime t => VStr (isoformat t)
  | _ => v
  end.

(** The patch [update_project] hands to the store. *)
Definition patch_of (payload : ProjectUpdate) (now : datetime) : document :=
  <["updated_at" := VDatetime now]> (ProjectUpdate_model_dump_exclude_unset payload).

(** The world after [update_project] has rewritten the document [old]. *)
Definition updated_world (oid : ObjectId) (patch old : document)
    (c : gmap ObjectId document) (w : World) : World :=
  with_project (<[oid := patch ∪ old]> c) (with_call (FindOneAndUpdate oid patch) w).

(** The environment variable [k] is set to a string that is not empty. *)
Definition env_nonempty (w : World) (k : string) : Prop :=
  ∃ v, environ w !! k = Some v ∧ v ≠ "".

(** A stored document as the API shows it, when it fits [ProjectOut]. *)
Definition ProjectOut_of (doc : document) : option ProjectOut :=
  serialize_doc (Some doc) ≫= ProjectOut_validate.

(** The documents [get_documents] fetches from a collection. *)
Definition fetched (limit : Z) (c : gmap ObjectId document) : list document :=
  take (Z.to_nat limit) ((λ kv, with_id kv.1 kv.2) <$> map_to_list c).

(** The bounds [ProjectCreate] puts on [name] and [description]. *)
Definition name_in_bounds (body : document) : Prop :=
  ∃ s, body !! "name" = Some (VStr s) ∧ (1 ≤ py_len s ≤ 120)%nat.

Definition description_in_bounds (body : document) : Prop :=
  ∀ s, body !! "description" = Some (VStr s) → (py_len s ≤ 2000)%nat.

(** A model that [ProjectCreate_validate] can have produced. *)
Definition ProjectCreate_ok (p : ProjectCreate) : Prop :=
  length_ok (Some 1%nat) (Some 120%nat) (pc_name p) = true ∧
  (∀ s, pc_description p = Some s → length_ok None (Some 2000%nat) s = true).

(** The document [create_project] stores for a payload. *)
Definition created_doc (payload : ProjectCreate) (now : datetime) : document :=
  <["created_at" := VDatetime now]> (ProjectCreate_model_dump payload).

(** The world after [create_project] has stored [doc] under [oid]. *)
Definition created_world (oid : ObjectId) (doc : document)
    (c : gmap ObjectId document) (w : World) : World :=
  with_call (FindOne oid)
    (with_project (<[oid := doc]> c)
       (with_oid_count (S (oid_count w)) (with_call (InsertOne doc) w))).

(** What [create_project] answers for a payload stored under [oid]. *)
Definition created_out (payload : ProjectCreate) (oid : ObjectId) (now : datetime)
  : ProjectOut :=
  {| po_name := pc_name payload; po_description := pc_description payload;
     po_status := pc_status payload; po_owner_email := pc_owner_email payload;
     po_due_date := pc_due_date payload; po_id := ObjectId_str oid;
     po_created_at := Some (isoformat now); po_updated_at := None |}.

(** The key [id] that [serialize_doc] adds for an identifier [o]. *)
Definition id_key (o : option value) : gset string :=
  match o with
  | Some v => if is_none v then ∅ else {["id"]}
  | None => ∅
  end.

(** The fields of [ProjectCreate]; they are those of [ProjectUpdate]. *)
Definition ProjectCreate_fields : list string := ProjectUpdate_fields.

(** The fields of [payload], as an update that sets them all. *)
Definition as_update (payload : ProjectCreate) : ProjectUpdate :=
  {| pu_name := Some (Some (pc_name payload));
     pu_description := Some (pc_description payload);
     pu_status := Some (Some (pc_status payload));
     pu_owner_email := Some (pc_owner_email payload);
     pu_due_date := Some (pc_due_date payload) |}.

End Backend.

Abbreviation document := (gmap string value).

(** ** The store's identifier format

    An instance of the codec for the scenario below: an identifier is written
    as twenty-four hexadecimal digits and held as the 96-bit number they
    spell. *)

Module Hex24.

Definition hex_digit (c : Ascii.ascii) : option N :=
  let n := Ascii.N_of_ascii c in
  if ((48 <=? n) && (n <=? 57))%N then Some (n - 48)%N
  else if ((97 <=? n) && (n <=? 102))%N then Some (n - 87)%N
  else if ((65 <=? n) && (n <=? 70))%N then Some (n - 55)%N
  else None.

Fixpoint all_hex (s : string) : bool :=
  match s with
  | EmptyString => true
  | String c s' => bool_decide (is_Some (hex_digit c)) && all_hex s'
  end.

Definition is_hex24 (s : string) : bool :=
  bool_decide (String.length s = 24%nat) && all_hex s.

Fixpoint of_hex (acc : N) (s : string) : N :=
  match s with
  | EmptyString => acc
  | String c s' => of_hex (16 * acc + default 0%N (hex_digit c))%N s'
  end.

Definition to_hex_digit (n : N) : Ascii.ascii :=
  Ascii.ascii_of_N (if (n <? 10)%N then n + 48 else n + 87)%N.

Fixpoint to_hex (digits : nat) (n : N) (acc : string) : string :=
  match digits with
  | O => acc
  | S d => to_hex d (n / 16)%N (String (to_hex_digit (n mod 16)%N) acc)
  end.

Definition hex24 : Bson := {|
  ObjectId := N;
  is_valid := is_hex24;
  ObjectId_of_str := of_hex 0;
  ObjectId_str := λ n, to_hex 24 n "";
|}.

End Hex24.

(** * A scenario on the 24-hex-digit store *)

Section Scenario.
#[local] Existing Instance Hex24.hex24.

Definition noon : datetime := Datetime 2024 1 2 12 0 0 0 true.
Definition later : datetime := Datetime 2024 1 2 12 0 1 250000 true.

(** A connected, empty store whose first identifier is [0...0abc]. *)
Definition empty_db : Database :=
  {| db_name := AttrValue "app";
     db_list_collection_names := inr ["project"];
     db_project := ∅ |}.

Definition w0 : World :=
  {| db := Some empty_db; environ := ∅; clock := noon;
     oid_gen := λ n, N.of_nat (n + 2748); oid_count := 0; calls := [] |}.

Definition at_time (t : datetime) (w : World) : World :=
  {| db := db w; environ := environ w; clock := t; oid_gen := oid_gen w;
     oid_count := oid_count w; calls := calls w |}.

Definition launch_id : string := "000000000000000000000abc".
Definition other_id : string := "aaaaaaaaaaaaaaaaaaaaaaaa".

(** After [POST {"name": "Launch"}]. *)
Definition w1 : World := (post_projects {["name" := VStr "Launch"]} w0).2.

Definition db1 : Database := default empty_db (db w1).

Definition launch_doc : document :=
  default ∅ (db_project db1 !! ObjectId_of_str launch_id).

(** Request bodies of [PUT], and the models they validate to. *)
Definition no_fields : ProjectUpdate :=
  {| pu_name := None; pu_description := None; pu_status := None;
     pu_owner_email := None; pu_due_date := None |}.

Definition status_completed : ProjectUpdate :=
  {| pu_name := None; pu_description := None; pu_status := Some (Some "completed");
     pu_owner_email := None; pu_due_date := None |}.

Definition name_null : ProjectUpdate :=
  {| pu_name := Some None; pu_description := None; pu_status := None;
     pu_owner_email := None; pu_due_date := None |}.

(** After [PUT {"name": null}] on the project of [w1]. *)
Definition w2 : World := (put_project launch_id {["name" := VNone]} w1).2.

Definition with_environ (e : gmap string string) (w : World) : World :=
  {| db := db w; environ := e; clock := clock w; oid_gen := oid_gen w;
     oid_count := oid_count w; calls := calls w |}.

(** Two environments in which [DATABASE_URL] is set. *)
Definition w_url_empty : World := with_environ {["DATABASE_URL" := ""]} w0.
Definition w_url_given : World := with_environ {["DATABASE_URL" := "mongodb://localhost"]} w0.

(** A store whose listing of collections raises. *)
Definition listing_error : exn :=
  Error "OperationFailure"
    "connexion refusée par le serveur de données : délai dépassé après 30 s".

Definition db_listing_fails : Database :=
  {| db_name := AttrValue "app";
     db_list_collection_names := inl listing_error;
     db_project := ∅ |}.

Definition w_listing_fails : World :=
  {| db := Some db_listing_fails; environ := ∅; clock := noon;
     oid_gen := λ n, N.of_nat (n + 2748); oid_count := 0; calls := [] |}.

(** A name of 61 characters that takes 122 bytes. *)
Fixpoint str_repeat (n : nat) (s : string) : string :=
  match n with
  | O => ""
  | S n' => s +:+ str_repeat n' s
  end.

Definition accented_name : string := str_repeat 61 "é".

Definition accented_payload : ProjectCreate :=
  {| pc_name := accented_name; pc_description := None; pc_status := "active";
     pc_owner_email := None; pc_due_date := None |}.

(** The payload of the creation, the project it answers, and that project
    once its status is updated at [later]. *)
Definition launch_payload : ProjectCreate :=
  {| pc_name := "Launch"; pc_description := None; pc_status := "active";
     pc_owner_email := None; pc_due_date := None |}.

Definition launch_project : ProjectOut :=
  created_out launch_payload (ObjectId_of_str launch_id) noon.

Definition completed_project : ProjectOut :=
  {| po_name := "Launch"; po_description := None; po_status := "completed";
     po_owner_email := None; po_due_date := None; po_id := launch_id;
     po_created_at := Some (isoformat noon); po_updated_at := Some (isoformat later) |}.

(** The stored document of the project as the driver hands it out, and
    serialized. *)
Definition launch_handed_out : document := with_id (ObjectId_of_str launch_id) launch_doc.

Definition launch_serialized : document :=
  default ∅ (serialize_doc (Some launch_handed_out)).

(** The report of [GET /test], when it is returned. *)
Definition report (w : World) : option Diagnostics :=
  match (test_database w).1 with
  | inr r => Some r
  | inl _ => None
  end.

End Scenario.

(** * Properties *)

Section Properties.
Context `{!Bson}.

(** Unfolding the monad's operations in a goal. *)
Ltac st_unfold :=
  unfold mbind, St_bind, mret, St_ret, modify, gets, raise, try_except.

(** ** [serialize_doc] *)

Lemma isoformat_step_lookup (d : document) kv k :
  isoformat_step d kv !! k =
    if decide (k = kv.1) then
      match kv.2 with VDatetime t => Some (VStr (isoformat t)) | _ => d !! k end
    else d !! k.
Proof.
  unfold isoformat_step. destruct kv as [k' v]; simpl.
  destruct v; case_decide; subst; try done;
    by rewrite ?lookup_insert_eq, ?lookup_insert_ne.
Qed.

Lemma foldl_isoformat_step_lookup (l : list (string * value)) (d : document) k :
  NoDup l.*1 →
  foldl isoformat_step d l !! k =
    match (list_to_map l : document) !! k with
    | Some (VDatetime t) => Some (VStr (isoformat t))
    | _ => d !! k
    end.
Proof.
  revert d. induction l as [|[k' v] l IH]; intros d Hnd; simpl.
  { by rewrite lookup_empty. }
  apply NoDup_cons in Hnd as [Hk' Hnd].
  rewrite IH by done. rewrite isoformat_step_lookup; simpl.
  destruct (decide (k = k')) as [->|Hne].
  - rewrite lookup_insert_eq.
    rewrite (not_elem_of_list_to_map_1 (M := gmap string) l k') by done.
    by destruct v.
  - by rewrite lookup_insert_ne.
Qed.

Lemma isoformat_loop (d : document) :
  foldl isoformat_step d (map_to_list d) = rendered <$> d.
Proof.
  apply map_eq; intros k.
  rewrite foldl_isoformat_step_lookup by apply NoDup_fst_map_to_list.
  rewrite list_to_map_to_list, lookup_fmap.
  destruct (d !! k) as [[]|]; done.
Qed.

Lemma falsy_Some (d : document) : falsy (Some d) = bool_decide (d = ∅).
Proof. done. Qed.

Lemma serialize_doc_Some (d : document) :
  d ≠ ∅ →
  serialize_doc (Some d) =
    Some (rendered <$>
            (if is_none (default VNone (d !! "_id")) then delete "_id" d
             else <["id" := VStr (py_str (default VNone (d !! "_id")))]> (delete "_id" d))).
Proof.
  intros Hne. unfold serialize_doc. rewrite falsy_Some, bool_decide_eq_false_2 by done.
  simpl. by rewrite isoformat_loop.
Qed.

(** C5. [serialize_doc] returns an absent or empty document as it is.  Of any
    other document it makes a mapping without [_id]; an identifier that is
    not [None] appears under [id] as its string; every other field whose
    value is a [datetime] holds its [isoformat()] string, and every other
    field holds the value it had.  The key [id] itself is an ordinary field
    when the document has no identifier. *)
Theorem serialize_doc_spec (doc : option document) :
  (falsy doc = true → serialize_doc doc = doc) ∧
  (∀ d, doc = Some d → d ≠ ∅ →
     ∃ out, serialize_doc doc = Some out ∧
       out !! "_id" = None ∧
       (∀ v, d !! "_id" = Some v → v ≠ VNone → out !! "id" = Some (VStr (py_str v))) ∧
       (∀ k t, k ≠ "_id" → k ≠ "id" → d !! k = Some (VDatetime t) →
          out !! k = Some (VStr (isoformat t))) ∧
       (∀ k, k ≠ "_id" → k ≠ "id" → (∀ t, d !! k ≠ Some (VDatetime t)) →
          out !! k = d !! k) ∧
       (d !! "_id" = None ∨ d !! "_id" = Some VNone → out !! "id" = rendered <$> d !! "id")).
Proof.
  split.
  { intros Hf. unfold serialize_doc. by rewrite Hf. }
  intros d -> Hne. rewrite serialize_doc_Some by done.
  eexists; split; [done|].
  split; [|split; [|split; [|split]]].
  - rewrite lookup_fmap. destruct (is_none _).
    + by rewrite lookup_delete_eq.
    + by rewrite lookup_insert_ne, lookup_delete_eq.
  - intros v Hv Hnone. rewrite Hv; simpl.
    destruct v; try done; simpl; by rewrite lookup_fmap, lookup_insert_eq.
  - intros k t Hk1 Hk2 Hkt. rewrite lookup_fmap.
    destruct (is_none _);
      rewrite ?lookup_insert_ne, lookup_delete_ne, Hkt by done; done.
  - intros k Hk1 Hk2 Hkt. rewrite lookup_fmap.
    destruct (is_none _);
      rewrite ?lookup_insert_ne, lookup_delete_ne by done;
      destruct (d !! k) as [[]|] eqn:E; try done; by destruct (Hkt t).
  - intros [-> | ->]; simpl; by rewrite lookup_fmap, lookup_delete_ne.
Qed.

(** ** Running the handlers *)

Lemma ProjectOut_new_state {S} (kwargs : option document) (s : S) :
  ProjectOut_new kwargs s = ((ProjectOut_new kwargs s).1, s).
Proof.
  unfold ProjectOut_new. destruct kwargs as [kw|]; [|done].
  by destruct (ProjectOut_validate kw).
Qed.

Lemma with_id_nonempty oid (doc : document) : with_id oid doc ≠ ∅.
Proof. apply insert_non_empty. Qed.

Lemma update_project_invalid project_id payload w :
  is_valid project_id = false →
  update_project project_id payload w = (inl (HTTPException 400 "Invalid project id"), w).
Proof. intros Hv. unfold update_project. by rewrite Hv. Qed.

Lemma update_project_empty project_id payload w :
  is_valid project_id = true →
  ProjectUpdate_model_dump_exclude_unset payload = ∅ →
  update_project project_id payload w = (inl (HTTPException 400 "No changes provided"), w).
Proof.
  intros Hv He. unfold update_project. rewrite Hv; simpl.
  by rewrite bool_decide_eq_true_2.
Qed.

Lemma update_project_no_db project_id payload w :
  is_valid project_id = true →
  ProjectUpdate_model_dump_exclude_unset payload ≠ ∅ →
  db w = None →
  update_project project_id payload w =
    (inl (Error "TypeError" "'NoneType' object is not subscriptable"), w).
Proof.
  intros Hv Hne Hdb. unfold update_project. rewrite Hv; simpl.
  rewrite bool_decide_eq_false_2 by done.
  unfold find_one_and_update, collection. st_unfold. by rewrite Hdb.
Qed.

Lemma update_project_missing project_id payload w d :
  is_valid project_id = true →
  ProjectUpdate_model_dump_exclude_unset payload ≠ ∅ →
  db w = Some d →
  db_project d !! ObjectId_of_str project_id = None →
  update_project project_id payload w =
    (inl (HTTPException 404 "Project not found"),
     with_call (FindOneAndUpdate (ObjectId_of_str project_id) (patch_of payload (clock w))) w).
Proof.
  intros Hv Hne Hdb Hl. unfold update_project. rewrite Hv; simpl.
  rewrite bool_decide_eq_false_2 by done.
  unfold find_one_and_update, collection. st_unfold. rewrite Hdb; simpl.
  by rewrite Hl.
Qed.

Lemma update_project_found project_id payload w d old :
  is_valid project_id = true →
  ProjectUpdate_model_dump_exclude_unset payload ≠ ∅ →
  db w = Some d →
  db_project d !! ObjectId_of_str project_id = Some old →
  let oid := ObjectId_of_str project_id in
  let patch := patch_of payload (clock w) in
  let w' := updated_world oid patch old (db_project d) w in
  update_project project_id payload w =
    ((ProjectOut_new (serialize_doc (Some (with_id oid (patch ∪ old)))) w').1, w').
Proof.
  intros Hv Hne Hdb Hl oid patch w'. unfold update_project. rewrite Hv; simpl.
  rewrite bool_decide_eq_false_2 by done.
  unfold find_one_and_update, collection. st_unfold. rewrite Hdb; simpl.
  rewrite Hl; simpl.
  rewrite bool_decide_eq_false_2 by apply with_id_nonempty.
  apply ProjectOut_new_state.
Qed.

Lemma delete_project_invalid project_id w :
  is_valid project_id = false →
  delete_project project_id w = (inl (HTTPException 400 "Invalid project id"), w).
Proof. intros Hv. unfold delete_project. by rewrite Hv. Qed.

Lemma delete_project_missing project_id w d :
  is_valid project_id = true →
  db w = Some d →
  db_project d !! ObjectId_of_str project_id = None →
  delete_project project_id w =
    (inl (HTTPException 404 "Project not found"),
     with_call (DeleteOne (ObjectId_of_str project_id)) w).
Proof.
  intros Hv Hdb Hl. unfold delete_project. rewrite Hv; simpl.
  unfold delete_one, collection. st_unfold. rewrite Hdb; simpl. by rewrite Hl.
Qed.

Lemma delete_project_found project_id w d old :
  is_valid project_id = true →
  db w = Some d →
  db_project d !! ObjectId_of_str project_id = Some old →
  delete_project project_id w =
    (inr true,
     with_project (delete (ObjectId_of_str project_id) (db_project d))
       (with_call (DeleteOne (ObjectId_of_str project_id)) w)).
Proof.
  intros Hv Hdb Hl. unfold delete_project. rewrite Hv; simpl.
  unfold delete_one, collection. st_unfold. rewrite Hdb; simpl. by rewrite Hl.
Qed.

(** ** The patch of an update *)

Lemma dump_if_set_lookup k f (d : document) k' :
  dump_if_set k f d !! k' =
    if decide (k' = k) then
      match f with Some v => Some (optional_str_value v) | None => d !! k' end
    else d !! k'.
Proof.
  unfold dump_if_set. destruct f; case_decide; subst;
    by rewrite ?lookup_insert_eq, ?lookup_insert_ne.
Qed.

Lemma model_dump_exclude_unset_lookup (p : ProjectUpdate) k :
  ProjectUpdate_model_dump_exclude_unset p !! k =
    optional_str_value <$> ProjectUpdate_get p k.
Proof.
  unfold ProjectUpdate_model_dump_exclude_unset, ProjectUpdate_get.
  rewrite !dump_if_set_lookup, lookup_empty.
  repeat case_decide; subst; try done;
    by repeat match goal with |- context [match ?f with _ => _ end] => destruct f end.
Qed.

Lemma ProjectUpdate_get_fields (p : ProjectUpdate) k :
  k ∉ ProjectUpdate_fields → ProjectUpdate_get p k = None.
Proof.
  unfold ProjectUpdate_fields, ProjectUpdate_get. intros Hk.
  repeat case_decide; subst; try done; exfalso; apply Hk; set_solver.
Qed.

Lemma update_field_Some min_length max_length o f :
  update_field min_length max_length o = Some f →
  optional_str_value <$> f = o.
Proof.
  unfold update_field, optional_str_field, str_field.
  destruct o as [v|]; [|by intros [= <-]].
  destruct v; simpl; try done; try by intros [= <-].
  case_match; simpl; [by intros [= <-]|done].
Qed.

(** A validated body sets exactly the model's fields it holds. *)
Lemma ProjectUpdate_validate_get (body : document) (p : ProjectUpdate) k :
  ProjectUpdate_validate body = Some p →
  k ∈ ProjectUpdate_fields →
  optional_str_value <$> ProjectUpdate_get p k = body !! k.
Proof.
  unfold ProjectUpdate_validate. intros Hp Hk.
  destruct (update_field _ _ (body !! "name")) as [f1|] eqn:E1; [|done].
  destruct (update_field _ _ (body !! "description")) as [f2|] eqn:E2; [|done].
  destruct (update_field _ _ (body !! "status")) as [f3|] eqn:E3; [|done].
  destruct (update_field _ _ (body !! "owner_email")) as [f4|] eqn:E4; [|done].
  destruct (update_field _ _ (body !! "due_date")) as [f5|] eqn:E5; [|done].
  simpl in Hp. injection Hp as <-.
  apply update_field_Some in E1, E2, E3, E4, E5.
  unfold ProjectUpdate_fields in Hk. unfold ProjectUpdate_get; simpl.
  repeat (apply elem_of_cons in Hk as [->|Hk]; [by repeat case_decide|]).
  by apply elem_of_nil in Hk.
Qed.

Lemma updated_at_not_field : "updated_at" ∉ ProjectUpdate_fields.
Proof.
  unfold ProjectUpdate_fields. rewrite !not_elem_of_cons. repeat split; try done.
  apply not_elem_of_nil.
Qed.

Lemma patch_of_updated_at payload now :
  patch_of payload now !! "updated_at" = Some (VDatetime now).
Proof. apply lookup_insert_eq. Qed.

Lemma patch_of_other payload now k :
  k ≠ "updated_at" →
  patch_of payload now !! k = ProjectUpdate_model_dump_exclude_unset payload !! k.
Proof. intros Hk. unfold patch_of. by rewrite lookup_insert_ne. Qed.

Lemma updated_world_project oid patch old c w d :
  db w = Some d →
  db_project <$> db (updated_world oid patch old c w) = Some (<[oid := patch ∪ old]> c).
Proof. intros Hdb. unfold updated_world, with_project, with_call; simpl. by rewrite Hdb. Qed.

Lemma ProjectOut_new_status {S} kwargs (s : S) :
  status_of (ProjectOut_new kwargs s).1 = 200%Z ∨ status_of (ProjectOut_new kwargs s).1 = 500%Z.
Proof.
  unfold ProjectOut_new. destruct kwargs as [kw|]; [|by right].
  destruct (ProjectOut_validate kw); [by left|by right].
Qed.

Lemma ProjectOut_new_inr {S} kwargs (s : S) out :
  (ProjectOut_new kwargs s).1 = inr out →
  ∃ kw, kwargs = Some kw ∧ ProjectOut_validate kw = Some out.
Proof.
  unfold ProjectOut_new. destruct kwargs as [kw|]; [|done].
  destruct (ProjectOut_validate kw) eqn:E; [|done].
  intros [= <-]. eauto.
Qed.

Lemma update_project_inr project_id payload w out :
  (update_project project_id payload w).1 = inr out →
  is_valid project_id = true ∧
  ProjectUpdate_model_dump_exclude_unset payload ≠ ∅ ∧
  ∃ d old, db w = Some d ∧ db_project d !! ObjectId_of_str project_id = Some old.
Proof.
  intros Hout.
  destruct (is_valid project_id) eqn:Hv;
    [|by rewrite update_project_invalid in Hout].
  destruct (decide (ProjectUpdate_model_dump_exclude_unset payload = ∅)) as [He|Hne];
    [by rewrite update_project_empty in Hout|].
  destruct (db w) as [d|] eqn:Hdb;
    [|by rewrite update_project_no_db in Hout].
  destruct (db_project d !! ObjectId_of_str project_id) as [old|] eqn:Hl;
    [|by rewrite (update_project_missing _ _ _ _ Hv Hne Hdb Hl) in Hout].
  eauto 6.
Qed.

(** C2. With an identifier that [ObjectId.is_valid] refuses, the update
    handler and the delete handler both raise HTTP 400 and leave the world as
    it was: the store is the same and no call on the collection was made. *)
Theorem invalid_id_400 (project_id : string) (payload : ProjectUpdate) (w : World) :
  is_valid project_id = false →
  (∃ detail, update_project project_id payload w = (inl (HTTPException 400 detail), w)) ∧
  (∃ detail, delete_project project_id w = (inl (HTTPException 400 detail), w)) ∧
  status_of (update_project project_id payload w).1 = 400%Z ∧
  status_of (delete_project project_id w).1 = 400%Z ∧
  calls (update_project project_id payload w).2 = calls w ∧
  calls (delete_project project_id w).2 = calls w ∧
  db (update_project project_id payload w).2 = db w ∧
  db (delete_project project_id w).2 = db w.
Proof.
  intros Hv.
  rewrite update_project_invalid, delete_project_invalid by done.
  repeat split; eauto.
Qed.

Lemma ProjectOut_validate_updated_at (kw : document) out s :
  ProjectOut_validate kw = Some out →
  kw !! "updated_at" = Some (VStr s) →
  po_updated_at out = Some s.
Proof.
  unfold ProjectOut_validate. intros Hout Hk. rewrite Hk in Hout.
  destruct (ProjectCreate_validate kw); [|done]. simpl in Hout.
  destruct (kw !! "id" ≫= str_field None None); [|done]. simpl in Hout.
  destruct (from_option _ _ (kw !! "created_at")); [|done]. simpl in Hout.
  by injection Hout as <-.
Qed.

(** C1. Updating an existing project with a body that sets at least one
    field rewrites that project only: every field of the patch takes the
    patch's value, [updated_at] becomes the current UTC time, every other
    field of the stored document keeps its value, and every other document
    is untouched.  A response that is returned carries the new
    [updated_at]. *)
Theorem update_project_frame (project_id : string) (payload : ProjectUpdate)
    (w : World) (d : Database) (old : document) :
  is_valid project_id = true →
  ProjectUpdate_model_dump_exclude_unset payload ≠ ∅ →
  db w = Some d →
  db_project d !! ObjectId_of_str project_id = Some old →
  let changes := ProjectUpdate_model_dump_exclude_unset payload in
  let r := update_project project_id payload w in
  ∃ d' new,
    db r.2 = Some d' ∧
    db_project d' !! ObjectId_of_str project_id = Some new ∧
    (∀ k v, changes !! k = Some v → new !! k = Some v) ∧
    (∀ k, changes !! k = None → k ≠ "updated_at" → new !! k = old !! k) ∧
    new !! "updated_at" = Some (VDatetime (clock w)) ∧
    (∀ oid, oid ≠ ObjectId_of_str project_id →
       db_project d' !! oid = db_project d !! oid) ∧
    (∀ out, r.1 = inr out → po_updated_at out = Some (isoformat (clock w))).
Proof.
  intros Hv Hne Hdb Hold changes r. subst r.
  rewrite (update_project_found _ _ _ _ _ Hv Hne Hdb Hold); simpl.
  pose proof (updated_world_project (ObjectId_of_str project_id)
                (patch_of payload (clock w)) old (db_project d) w d Hdb) as Hw.
  destruct (db (updated_world _ _ _ _ _)) as [d'|] eqn:Hd'; [|done].
  injection Hw as Hw.
  exists d', (patch_of payload (clock w) ∪ old). rewrite Hw.
  split; [done|]. split; [apply lookup_insert_eq|].
  split; [|split; [|split; [|split]]].
  - intros k v Hk. destruct (decide (k = "updated_at")) as [->|Hk'].
    + fold changes in Hne. pose proof (model_dump_exclude_unset_lookup payload "updated_at") as E.
      fold changes in E. rewrite Hk in E. by rewrite ProjectUpdate_get_fields in E by apply updated_at_not_field.
    + apply lookup_union_Some_l. by rewrite patch_of_other.
  - intros k Hk Hk'. apply lookup_union_r. by rewrite patch_of_other.
  - apply lookup_union_Some_l, patch_of_updated_at.
  - intros oid Hoid. by rewrite lookup_insert_ne.
  - intros out Hout. apply ProjectOut_new_inr in Hout as (kw & Hkw & Hout).
    rewrite serialize_doc_Some in Hkw by apply with_id_nonempty.
    injection Hkw as <-.
    eapply ProjectOut_validate_updated_at; [done|].
    unfold with_id. rewrite lookup_insert_eq; simpl.
    rewrite lookup_fmap, lookup_insert_ne, lookup_delete_ne, lookup_insert_ne by done.
    by rewrite (lookup_union_Some_l _ _ _ _ (patch_of_updated_at payload (clock w))).
Qed.

(** C3. The patch of an update holds exactly the model's fields that the
    request body holds, with the body's values, and no other key.  If that
    patch is empty the handler raises HTTP 400 and the world is as it was.
    Otherwise, for a valid identifier and a connected store, the one call
    made on the collection is [find_one_and_update] with the patch extended
    by [updated_at], the current UTC time. *)
Theorem update_patch_spec (body : document) (payload : ProjectUpdate)
    (project_id : string) (w : World) :
  ProjectUpdate_validate body = Some payload →
  let changes := ProjectUpdate_model_dump_exclude_unset payload in
  (∀ k, changes !! k = if bool_decide (k ∈ ProjectUpdate_fields) then body !! k else None) ∧
  (changes = ∅ →
     ∃ detail, update_project project_id payload w = (inl (HTTPException 400 detail), w)) ∧
  (changes ≠ ∅ → is_valid project_id = true → is_Some (db w) →
     calls (update_project project_id payload w).2 =
       (calls w ++ [FindOneAndUpdate (ObjectId_of_str project_id)
                      (<["updated_at" := VDatetime (clock w)]> changes)])%list).
Proof.
  intros Hp changes. split; [|split].
  - intros k. unfold changes. rewrite model_dump_exclude_unset_lookup.
    case_bool_decide as Hk.
    + by apply ProjectUpdate_validate_get.
    + by rewrite ProjectUpdate_get_fields.
  - intros He. destruct (is_valid project_id) eqn:Hv.
    + rewrite update_project_empty by done. eauto.
    + rewrite update_project_invalid by done. eauto.
  - intros Hne Hv [d Hdb].
    destruct (db_project d !! ObjectId_of_str project_id) as [old|] eqn:Hl.
    + by rewrite (update_project_found _ _ _ _ _ Hv Hne Hdb Hl).
    + by rewrite (update_project_missing _ _ _ _ Hv Hne Hdb Hl).
Qed.

(** C9. A model field that the body holds with the value null is part of the
    patch, with the value [None]: the patch is not empty, so for a valid
    identifier the handler does not answer 400, the patch it hands to the
    store holds the [None], and the stored document of an existing project
    then holds [None] in that field.  The body [{"name": null}] is such a
    body. *)
Theorem null_field_is_a_change (body : document) (payload : ProjectUpdate) (k : string) :
  ProjectUpdate_validate body = Some payload →
  k ∈ ProjectUpdate_fields →
  body !! k = Some VNone →
  let changes := ProjectUpdate_model_dump_exclude_unset payload in
  changes !! k = Some VNone ∧
  changes ≠ ∅ ∧
  (∀ project_id w, is_valid project_id = true →
     let r := update_project project_id payload w in
     status_of r.1 ≠ 400%Z ∧
     (is_Some (db w) →
        ∃ patch,
          calls r.2 = (calls w ++ [FindOneAndUpdate (ObjectId_of_str project_id) patch])%list ∧
                 patch !! k = Some VNone) ∧
     (∀ d old, db w = Some d → db_project d !! ObjectId_of_str project_id = Some old →
        ∃ d' new, db r.2 = Some d' ∧
                  db_project d' !! ObjectId_of_str project_id = Some new ∧
                  new !! k = Some VNone)) ∧
  is_Some (ProjectUpdate_validate {["name" := VNone]}).
Proof.
  intros Hp Hk Hbody changes.
  assert (changes !! k = Some VNone) as Hck.
  { unfold changes. rewrite model_dump_exclude_unset_lookup.
    by rewrite (ProjectUpdate_validate_get body). }
  assert (changes ≠ ∅) as Hne.
  { intros He. by rewrite He, lookup_empty in Hck. }
  assert (k ≠ "updated_at") as Hk'.
  { intros ->. by apply updated_at_not_field. }
  split; [done|]. split; [done|]. split; [|by eexists].
  intros project_id w Hv r. subst r.
  split; [|split].
  - destruct (db w) as [d|] eqn:Hdb.
    + destruct (db_project d !! ObjectId_of_str project_id) as [old|] eqn:Hl.
      * rewrite (update_project_found _ _ _ _ _ Hv Hne Hdb Hl); simpl.
        by destruct (ProjectOut_new_status
                       (serialize_doc (Some (with_id (ObjectId_of_str project_id)
                                               (patch_of payload (clock w) ∪ old))))
                       (updated_world (ObjectId_of_str project_id)
                          (patch_of payload (clock w)) old (db_project d) w)) as [-> | ->].
      * by rewrite (update_project_missing _ _ _ _ Hv Hne Hdb Hl).
    + by rewrite (update_project_no_db _ _ _ Hv Hne Hdb).
  - intros [d Hdb]. exists (patch_of payload (clock w)).
    split; [|by rewrite patch_of_other].
    destruct (db_project d !! ObjectId_of_str project_id) as [old|] eqn:Hl.
    + by rewrite (update_project_found _ _ _ _ _ Hv Hne Hdb Hl).
    + by rewrite (update_project_missing _ _ _ _ Hv Hne Hdb Hl).
  - intros d old Hdb Hl.
    rewrite (update_project_found _ _ _ _ _ Hv Hne Hdb Hl); simpl.
    pose proof (updated_world_project (ObjectId_of_str project_id)
                  (patch_of payload (clock w)) old (db_project d) w d Hdb) as Hw.
    destruct (db (updated_world _ _ _ _ _)) as [d'|] eqn:Hd'; [|done].
    injection Hw as Hw.
    exists d', (patch_of payload (clock w) ∪ old). rewrite Hw.
    split; [done|]. split; [apply lookup_insert_eq|].
    apply lookup_union_Some_l. by rewrite patch_of_other.
Qed.

Lemma with_project_db c w d :
  db w = Some d →
  ∃ d', db (with_project c w) = Some d' ∧ db_project d' = c.
Proof. intros Hdb. unfold with_project, with_db; simpl. rewrite Hdb; simpl. eauto. Qed.

(** C4, as the code has it.  For a valid identifier that matches no
    document of a connected store, the update handler raises HTTP 404
    whenever the body sets at least one field, and the delete handler raises
    HTTP 404; neither changes the store.  After a delete of an existing
    project, which answers ok, a second delete of the same identifier raises
    HTTP 404. *)
Theorem not_found_404 (project_id : string) (w : World) (d : Database) :
  is_valid project_id = true →
  db w = Some d →
  (db_project d !! ObjectId_of_str project_id = None →
     (∀ payload, ProjectUpdate_model_dump_exclude_unset payload ≠ ∅ →
        (update_project project_id payload w).1 = inl (HTTPException 404 "Project not found") ∧
        db (update_project project_id payload w).2 = db w) ∧
     (delete_project project_id w).1 = inl (HTTPException 404 "Project not found") ∧
     db (delete_project project_id w).2 = db w) ∧
  (∀ old, db_project d !! ObjectId_of_str project_id = Some old →
     (delete_project project_id w).1 = inr true ∧
     (delete_project project_id (delete_project project_id w).2).1 =
       inl (HTTPException 404 "Project not found")).
Proof.
  intros Hv Hdb. split.
  - intros Hl. split.
    + intros payload Hne. by rewrite (update_project_missing _ _ _ _ Hv Hne Hdb Hl).
    + by rewrite (delete_project_missing _ _ _ Hv Hdb Hl).
  - intros old Hl. rewrite (delete_project_found _ _ _ _ Hv Hdb Hl); simpl.
    split; [done|].
    destruct (with_project_db (delete (ObjectId_of_str project_id) (db_project d))
                (with_call (DeleteOne (ObjectId_of_str project_id)) w) d Hdb)
      as (d' & Hdb' & Hc).
    rewrite (delete_project_missing _ _ d' Hv Hdb'); [done|].
    rewrite Hc. apply lookup_delete_eq.
Qed.

(** ** Diagnostics *)

Lemma str_prefix_nil n : str_prefix n "" = "".
Proof. by destruct n. Qed.

Lemma str_prefix_cons n c s :
  str_prefix n (String c s) =
    if is_continuation c then String c (str_prefix n s)
    else match n with
         | O => EmptyString
         | S n' => String c (str_prefix n' s)
         end.
Proof. by destruct n. Qed.

Lemma str_prefix_length n s : (py_len (str_prefix n s) ≤ n)%nat.
Proof.
  revert n. induction s as [|c s IH]; intros n.
  { rewrite str_prefix_nil. simpl. lia. }
  rewrite str_prefix_cons. destruct (is_continuation c) eqn:Hc.
  - cbn [py_len]. rewrite Hc. apply IH.
  - destruct n as [|n]; [simpl; lia|].
    cbn [py_len]. rewrite Hc. specialize (IH n). lia.
Qed.

Lemma getenv_truthy_spec w k : getenv_truthy w k = true ↔ env_nonempty w k.
Proof.
  unfold getenv_truthy, env_nonempty. destruct (environ w !! k) as [v|].
  - rewrite bool_decide_eq_true. split.
    + intros Hv. by exists v.
    + by intros (v' & [= <-] & Hv).
  - split; [done|]. by intros (v & Hv & _).
Qed.

(** C7. The diagnostics endpoint always returns its report and leaves the
    world as it was, so the answer is 200.  An exception raised by [db.name]
    or by [db.list_collection_names()] ends up in the [database] field as a
    fixed prefix followed by the first 50 characters of its message.  The
    [collections] field is the first 10 names the store lists, or empty. *)
Theorem test_database_degrades (w : World) :
  ∃ r, test_database w = (inr r, w) ∧
    status_of (test_database w).1 = 200%Z ∧
    (∀ d e, db w = Some d → db_name d = AttrRaises e →
       database r = "❌ Error: " +:+ str_prefix 50 (exn_str e)) ∧
    (∀ d e, db w = Some d → (∀ e', db_name d ≠ AttrRaises e') →
       db_list_collection_names d = inl e →
       database r = "⚠️  Connected but Error: " +:+ str_prefix 50 (exn_str e)) ∧
    (∀ e, py_len (str_prefix 50 (exn_str e)) ≤ 50)%nat ∧
    (∀ d names, db w = Some d → (∀ e', db_name d ≠ AttrRaises e') →
       db_list_collection_names d = inr names →
       collections r = take 10 names) ∧
    (collections r = [] ∨
     ∃ d names, db w = Some d ∧ db_list_collection_names d = inr names ∧
                collections r = take 10 names) ∧
    (length (collections r) ≤ 10)%nat.
Proof.
  unfold test_database, name_or_connected, list_collection_names. st_unfold.
  destruct (db w) as [d|] eqn:Hdb; simpl;
    [destruct (db_name d) as [|nm|e] eqn:Hn; simpl;
      [destruct (db_list_collection_names d) as [e|names] eqn:Hc; simpl ..| ] |];
    (eexists; split; [reflexivity|]); simpl;
    repeat lazymatch goal with |- _ ∧ _ => split end;
    try (intros; apply str_prefix_length);
    try (intros; simplify_eq; congruence);
    try (intros ??? Hno; intros; exfalso; by eapply Hno);
    try (by left);
    try (right; by eauto);
    try (rewrite length_take; lia);
    simpl; lia.
Qed.

(** C10, as the code has it.  In every report of the diagnostics endpoint,
    [database_url] and [database_name] are ["✅ Set"] when [DATABASE_URL] and
    [DATABASE_NAME] are set to a string that is not empty, and
    ["❌ Not Set"] otherwise; whatever the connection check wrote there is
    overwritten, so two worlds with the same environment report the same two
    fields whatever their stores are. *)
Theorem env_fields_from_environment (w : World) :
  ∃ r, test_database w = (inr r, w) ∧
    (env_nonempty w "DATABASE_URL" → database_url r = Some "✅ Set") ∧
    (¬ env_nonempty w "DATABASE_URL" → database_url r = Some "❌ Not Set") ∧
    (env_nonempty w "DATABASE_NAME" → database_name r = Some "✅ Set") ∧
    (¬ env_nonempty w "DATABASE_NAME" → database_name r = Some "❌ Not Set") ∧
    (∀ w' r', environ w' = environ w → test_database w' = (inr r', w') →
       database_url r' = database_url r ∧ database_name r' = database_name r).
Proof.
  assert (∀ w0 : World, ∃ r0, test_database w0 = (inr r0, w0) ∧
            database_url r0 =
              Some (if getenv_truthy w0 "DATABASE_URL" then "✅ Set" else "❌ Not Set") ∧
            database_name r0 =
              Some (if getenv_truthy w0 "DATABASE_NAME" then "✅ Set" else "❌ Not Set"))
    as Hrun.
  { intros w0. unfold test_database.
    destruct (try_except _ _ _) as [x r0]. eexists; split; [done|]. done. }
  destruct (Hrun w) as (r & Hr & Hurl & Hname). exists r. split; [done|].
  split; [|split; [|split; [|split]]].
  - intros Hs%getenv_truthy_spec. by rewrite Hurl, Hs.
  - intros Hs. rewrite Hurl. destruct (getenv_truthy w "DATABASE_URL") eqn:E; [|done].
    by apply getenv_truthy_spec in E.
  - intros Hs%getenv_truthy_spec. by rewrite Hname, Hs.
  - intros Hs. rewrite Hname. destruct (getenv_truthy w "DATABASE_NAME") eqn:E; [|done].
    by apply getenv_truthy_spec in E.
  - intros w' r' Henv Hr'. destruct (Hrun w') as (r'' & Hr'' & Hurl' & Hname').
    rewrite Hr' in Hr''. injection Hr'' as <-.
    rewrite Hurl, Hurl', Hname, Hname'. unfold getenv_truthy. by rewrite Henv.
Qed.

(** ** Listing *)

Lemma ProjectOut_new_of {S} (doc : document) (s : S) :
  ProjectOut_new (serialize_doc (Some doc)) s =
    match ProjectOut_of doc with
    | Some out => (inr out, s)
    | None => ((ProjectOut_new (serialize_doc (Some doc)) s).1, s)
    end.
Proof.
  unfold ProjectOut_of, ProjectOut_new.
  destruct (serialize_doc (Some doc)) as [kw|]; simpl; [|done].
  by destruct (ProjectOut_validate kw).
Qed.

Lemma ProjectOut_new_of_None {S} (doc : document) (s : S) :
  ProjectOut_of doc = None →
  ∃ e, ProjectOut_new (serialize_doc (Some doc)) s = (inl e, s).
Proof.
  unfold ProjectOut_of, ProjectOut_new.
  destruct (serialize_doc (Some doc)) as [kw|]; simpl; [|by eauto].
  intros ->. eauto.
Qed.

Lemma mapM_St_cons {S A B} (f : A → St S B) x l (s : S) :
  mapM f (x :: l) s =
    match f x s with
    | (inl e, s') => (inl e, s')
    | (inr y, s') =>
        match mapM f l s' with
        | (inl e, s'') => (inl e, s'')
        | (inr k, s'') => (inr (y :: k), s'')
        end
    end.
Proof. done. Qed.

Lemma mapM_ProjectOut_new {S} (docs : list document) (outs : list ProjectOut) (s : S) :
  Forall2 (λ doc out, ProjectOut_of doc = Some out) docs outs →
  mapM (λ d, ProjectOut_new (serialize_doc (Some d))) docs s = (inr outs, s).
Proof.
  induction 1 as [|doc out docs outs Hout _ IH]; [done|].
  by rewrite mapM_St_cons, ProjectOut_new_of, Hout, IH.
Qed.

Lemma mapM_ProjectOut_new_inv {S} (docs : list document) (outs : list ProjectOut) (s : S) :
  (mapM (λ d, ProjectOut_new (serialize_doc (Some d))) docs s).1 = inr outs →
  Forall2 (λ doc out, ProjectOut_of doc = Some out) docs outs.
Proof.
  revert outs. induction docs as [|doc docs IH]; intros outs.
  { intros [= <-]. constructor. }
  rewrite mapM_St_cons.
  destruct (ProjectOut_of doc) as [out|] eqn:Hout.
  - rewrite ProjectOut_new_of, Hout.
    destruct (mapM (M := St S) _ docs s) as [[e|outs'] s'] eqn:Hm; simpl; [done|].
    intros [= <-]. constructor; [done|]. by apply IH.
  - by destruct (ProjectOut_new_of_None doc s Hout) as [e ->].
Qed.

Lemma list_projects_run limit w d :
  db w = Some d →
  list_projects limit w =
    mapM (λ doc, ProjectOut_new (serialize_doc (Some doc)))
      (fetched (default 100%Z limit) (db_project d))
      (with_call (Find (default 100%Z limit)) w).
Proof.
  intros Hdb. unfold list_projects, get_documents, collection. st_unfold.
  rewrite Hdb. done.
Qed.

Lemma mapM_ProjectOut_new_state (docs : list document) (w : World) :
  (mapM (λ doc, ProjectOut_new (serialize_doc (Some doc))) docs w).2 = w.
Proof.
  induction docs as [|doc docs IH]; [done|].
  rewrite mapM_St_cons, ProjectOut_new_state.
  destruct (ProjectOut_new _ w).1; [done|].
  by destruct (mapM (M := St World) _ docs w) as [[e|outs] w'].
Qed.

(** C8, as the code has it.  An absent [limit] is 100.  With a connected
    store the handler makes one [find] call with that limit and leaves the
    store as it is; it returns the array of the fetched documents, each
    serialized into a [ProjectOut], exactly when every fetched document fits
    that model, and the answer is then 200. *)
Theorem list_projects_spec (limit : option Z) (w : World) (d : Database) :
  db w = Some d →
  let lim := default 100%Z limit in
  let r := list_projects limit w in
  list_projects None w = list_projects (Some 100%Z) w ∧
  calls r.2 = (calls w ++ [Find lim])%list ∧
  db r.2 = db w ∧
  (∀ outs, r.1 = inr outs ↔
     Forall2 (λ doc out, ProjectOut_of doc = Some out) (fetched lim (db_project d)) outs) ∧
  (∀ outs, r.1 = inr outs → status_of r.1 = 200%Z).
Proof.
  intros Hdb lim r. subst r. split; [done|].
  rewrite (list_projects_run _ _ _ Hdb). fold lim.
  rewrite mapM_ProjectOut_new_state. split; [done|]. split; [done|].
  split.
  - intros outs. split.
    + apply mapM_ProjectOut_new_inv.
    + intros Hall. by rewrite (mapM_ProjectOut_new _ _ _ Hall).
  - by intros outs ->.
Qed.

(** ** Creating *)

Lemma str_field_Some min_length max_length v s :
  str_field min_length max_length v = Some s →
  v = VStr s ∧ length_ok min_length max_length s = true.
Proof.
  unfold str_field. destruct v; try done.
  destruct (length_ok _ _ _) eqn:E; [|done]. by intros [= <-].
Qed.

Lemma optional_str_field_Some min_length max_length v o :
  optional_str_field min_length max_length v = Some o →
  v = optional_str_value o ∧ (∀ s, o = Some s → length_ok min_length max_length s = true).
Proof.
  unfold optional_str_field. destruct v; simpl; try done.
  - by intros [= <-].
  - destruct (length_ok _ _ _) eqn:E; simpl; [|done].
    intros [= <-]. split; [done|]. by intros ? [= <-].
Qed.

Lemma length_ok_name s :
  length_ok (Some 1%nat) (Some 120%nat) s = true ↔ (1 ≤ py_len s ≤ 120)%nat.
Proof.
  unfold length_ok; simpl. rewrite andb_true_iff, !bool_decide_eq_true. done.
Qed.

Lemma length_ok_description s :
  length_ok None (Some 2000%nat) s = true ↔ (py_len s ≤ 2000)%nat.
Proof. unfold length_ok; simpl. by rewrite bool_decide_eq_true. Qed.

Lemma ProjectCreate_validate_Some (body : document) p :
  ProjectCreate_validate body = Some p →
  ProjectCreate_ok p ∧
  body !! "name" = Some (VStr (pc_name p)) ∧
  (∀ v, body !! "description" = Some v → v = optional_str_value (pc_description p)) ∧
  (body !! "status" = None → pc_status p = "active").
Proof.
  unfold ProjectCreate_validate. intros Hp.
  destruct (body !! "name") as [vn|] eqn:En; [|done]. simpl in Hp.
  destruct (str_field _ _ vn) as [name|] eqn:E1; [|done]. simpl in Hp.
  destruct (from_option _ _ (body !! "description")) as [description|] eqn:E2; [|done].
  simpl in Hp.
  destruct (from_option _ _ (body !! "status")) as [status|] eqn:E3; [|done]. simpl in Hp.
  destruct (from_option _ _ (body !! "owner_email")) as [owner_email|]; [|done].
  simpl in Hp.
  destruct (from_option _ _ (body !! "due_date")) as [due_date|]; [|done]. simpl in Hp.
  injection Hp as <-. unfold ProjectCreate_ok. simpl.
  apply str_field_Some in E1 as [-> Hlen].
  assert (∀ v, body !! "description" = Some v → optional_str_field None (Some 2000%nat) v = Some description) as Hd.
  { intros v Hv. by rewrite Hv in E2. }
  split; [split; [done|]|split; [done|split]].
  - intros s ->. destruct (body !! "description") as [v|] eqn:Ed; [|done].
    simpl in E2. apply optional_str_field_Some in E2 as [_ Hs]. by apply Hs.
  - intros v Hv. by destruct (optional_str_field_Some _ _ _ _ (Hd v Hv)).
  - intros Hs. rewrite Hs in E3. by injection E3 as <-.
Qed.

Lemma ProjectCreate_validate_fields (kw : document) p :
  ProjectCreate_ok p →
  kw !! "name" = Some (VStr (pc_name p)) →
  kw !! "description" = Some (optional_str_value (pc_description p)) →
  kw !! "status" = Some (VStr (pc_status p)) →
  kw !! "owner_email" = Some (optional_str_value (pc_owner_email p)) →
  kw !! "due_date" = Some (optional_str_value (pc_due_date p)) →
  ProjectCreate_validate kw = Some p.
Proof.
  intros [Hn Hd] H1 H2 H3 H4 H5. unfold ProjectCreate_validate.
  rewrite H1, H2, H3, H4, H5. destruct p as [name description status owner_email due_date].
  simpl in *. rewrite Hn. simpl.
  destruct description as [s|]; simpl; [rewrite (Hd s eq_refl); simpl|];
    by destruct owner_email, due_date.
Qed.

Lemma created_world_db oid doc c w d :
  db w = Some d →
  ∃ d', db (created_world oid doc c w) = Some d' ∧ db_project d' = <[oid := doc]> c.
Proof.
  intros Hdb. unfold created_world, with_call, with_project, with_db, with_oid_count.
  cbn [db]. rewrite Hdb. cbn [fmap option_fmap option_map]. eauto.
Qed.

Lemma create_project_run payload w d :
  db w = Some d →
  db_project d !! oid_gen w (oid_count w) = None →
  let oid := oid_gen w (oid_count w) in
  let doc := created_doc payload (clock w) in
  let w' := created_world oid doc (db_project d) w in
  create_project payload w = ((ProjectOut_new (serialize_doc (Some (with_id oid doc))) w').1, w').
Proof.
  intros Hdb Hfresh oid doc w'.
  unfold create_project, create_document, insert_one, find_one, collection. st_unfold.
  rewrite Hdb; simpl. rewrite Hfresh; simpl. rewrite Hdb; simpl.
  rewrite lookup_insert_eq; simpl. apply ProjectOut_new_state.
Qed.

Lemma serialize_doc_with_id oid (doc : document) :
  doc !! "_id" = None →
  serialize_doc (Some (with_id oid doc)) =
    Some (rendered <$> <["id" := VStr (ObjectId_str oid)]> doc).
Proof.
  intros Hid. rewrite serialize_doc_Some by apply with_id_nonempty.
  unfold with_id. rewrite lookup_insert_eq; simpl.
  by rewrite delete_insert_id.
Qed.

Lemma created_doc_lookup payload now k :
  created_doc payload now !! k =
    if decide (k = "created_at") then Some (VDatetime now)
    else if decide (k = "name") then Some (VStr (pc_name payload))
    else if decide (k = "description") then Some (optional_str_value (pc_description payload))
    else if decide (k = "status") then Some (VStr (pc_status payload))
    else if decide (k = "owner_email") then Some (optional_str_value (pc_owner_email payload))
    else if decide (k = "due_date") then Some (optional_str_value (pc_due_date payload))
    else None.
Proof.
  unfold created_doc, ProjectCreate_model_dump.
  repeat (case_decide; [subst k;
    repeat (rewrite lookup_insert_ne by done); by rewrite lookup_insert_eq|]).
  repeat (rewrite lookup_insert_ne by done). apply lookup_empty.
Qed.

Lemma rendered_optional_str o : rendered (optional_str_value o) = optional_str_value o.
Proof. by destruct o. Qed.

Lemma created_doc_serialized payload now oid :
  ProjectCreate_ok payload →
  ProjectOut_of (with_id oid (created_doc payload now)) =
    Some {| po_name := pc_name payload; po_description := pc_description payload;
            po_status := pc_status payload; po_owner_email := pc_owner_email payload;
            po_due_date := pc_due_date payload; po_id := ObjectId_str oid;
            po_created_at := Some (isoformat now); po_updated_at := None |}.
Proof.
  intros Hok. unfold ProjectOut_of.
  rewrite serialize_doc_with_id by (by rewrite created_doc_lookup). simpl.
  unfold ProjectOut_validate.
  erewrite ProjectCreate_validate_fields; [|done|..];
    try (rewrite lookup_fmap, lookup_insert_ne, created_doc_lookup by done; simpl;
         by rewrite ?rendered_optional_str).
Qed.

Lemma post_projects_run (body : document) (w : World) p d :
  ProjectCreate_validate body = Some p →
  ProjectCreate_ok p →
  db w = Some d →
  db_project d !! oid_gen w (oid_count w) = None →
  post_projects body w =
    (inr {| po_name := pc_name p; po_description := pc_description p;
            po_status := pc_status p; po_owner_email := pc_owner_email p;
            po_due_date := pc_due_date p; po_id := ObjectId_str (oid_gen w (oid_count w));
            po_created_at := Some (isoformat (clock w)); po_updated_at := None |},
     created_world (oid_gen w (oid_count w)) (created_doc p (clock w)) (db_project d) w).
Proof.
  intros Hp Hok Hdb Hfresh. unfold post_projects, with_body. rewrite Hp.
  rewrite (create_project_run p w d Hdb Hfresh).
  by rewrite ProjectOut_new_of, created_doc_serialized.
Qed.

Lemma created_doc_status p now : created_doc p now !! "status" = Some (VStr (pc_status p)).
Proof. rewrite created_doc_lookup. repeat case_decide; congruence. Qed.

(** C6. A body that [ProjectCreate] accepts has a [name] that is a string of
    1 to 120 characters, and a [description] that, when a string, has at most
    2000 characters.  A body that breaks one of these bounds is answered 422
    and nothing is stored.  When an accepted body has no [status], the model
    has status ["active"], and so have the document stored for it and the
    project returned. *)
Theorem create_validation (body : document) (w : World) :
  (∀ p, ProjectCreate_validate body = Some p →
     name_in_bounds body ∧ description_in_bounds body) ∧
  (¬ name_in_bounds body ∨ ¬ description_in_bounds body →
     post_projects body w = (inl (RequestValidationError "Unprocessable Entity"), w) ∧
     status_of (post_projects body w).1 = 422%Z) ∧
  (body !! "status" = None →
   ∀ p, ProjectCreate_validate body = Some p →
     pc_status p = "active" ∧
     ∀ d, db w = Some d → db_project d !! oid_gen w (oid_count w) = None →
       ∃ out d' doc,
         (post_projects body w).1 = inr out ∧
         po_status out = "active" ∧
         po_name out = pc_name p ∧
         db (post_projects body w).2 = Some d' ∧
         db_project d' !! oid_gen w (oid_count w) = Some doc ∧
         doc !! "status" = Some (VStr "active")).
Proof.
  assert (∀ p, ProjectCreate_validate body = Some p →
            name_in_bounds body ∧ description_in_bounds body) as Hbounds.
  { intros p (Hok & Hname & Hdesc & _)%ProjectCreate_validate_Some.
    destruct Hok as [Hn Hd]. split.
    - exists (pc_name p). split; [done|]. by apply length_ok_name.
    - intros s Hs. apply Hdesc in Hs. destruct (pc_description p) as [s'|] eqn:E; [|done].
      injection Hs as ->. by apply length_ok_description, Hd. }
  split; [done|]. split.
  - intros Hbad. unfold post_projects, with_body.
    destruct (ProjectCreate_validate body) as [p|] eqn:Hp; [|done].
    destruct (Hbounds p eq_refl) as [Hn Hd]. by destruct Hbad.
  - intros Hstatus p Hp.
    destruct (ProjectCreate_validate_Some body p Hp) as (Hok & _ & _ & Hactive).
    specialize (Hactive Hstatus). split; [done|].
    intros d Hdb Hfresh.
    rewrite (post_projects_run body w p d Hp Hok Hdb Hfresh).
    destruct (created_world_db (oid_gen w (oid_count w)) (created_doc p (clock w))
                (db_project d) w d Hdb) as (d' & Hdb' & Hc).
    eexists _, d', (created_doc p (clock w)).
    split; [reflexivity|]. split; [exact Hactive|]. split; [reflexivity|].
    split; [exact Hdb'|]. rewrite Hc, lookup_insert_eq. split; [reflexivity|].
    by rewrite created_doc_status, Hactive.
Qed.

End Properties.


(** * Further properties of the code *)

Section Coverage.
Context `{!Bson}.

Ltac st_unfold :=
  unfold mbind, St_bind, mret, St_ret, modify, gets, raise, try_except.

(** ** [serialize_doc], again *)

Lemma rendered_idemp (v : value) : rendered (rendered v) = rendered v.
Proof. by destruct v. Qed.

Lemma rendered_not_datetime (v : value) t : rendered v ≠ VDatetime t.
Proof. by destruct v. Qed.

(** The document [serialize_doc] renders, before the loop over its values. *)
Lemma renamed_no_id (d : document) :
  (if is_none (default VNone (d !! "_id")) then delete "_id" d
   else <["id" := VStr (py_str (default VNone (d !! "_id")))]> (delete "_id" d)) !! "_id"
  = None.
Proof.
  destruct (is_none _).
  - apply lookup_delete_eq.
  - by rewrite lookup_insert_ne, lookup_delete_eq.
Qed.

Lemma serialize_doc_empty : serialize_doc (Some ∅) = Some ∅.
Proof. unfold serialize_doc. by rewrite falsy_Some, bool_decide_eq_true_2. Qed.

(** X1. Serializing a serialized document changes nothing. *)
Theorem serialize_doc_idempotent (doc : option document) :
  serialize_doc (serialize_doc doc) = serialize_doc doc.
Proof.
  destruct doc as [d|]; [|done].
  destruct (decide (d = ∅)) as [->|Hne]; [by rewrite !serialize_doc_empty|].
  rewrite serialize_doc_Some by done.
  set (m := if is_none _ then _ else _).
  destruct (decide (rendered <$> m = ∅)) as [He|Hne'].
  { rewrite He. apply serialize_doc_empty. }
  rewrite serialize_doc_Some by done.
  assert ((rendered <$> m) !! "_id" = None) as Hid.
  { rewrite lookup_fmap. unfold m. by rewrite renamed_no_id. }
  rewrite Hid. simpl. rewrite delete_id by done.
  f_equal. rewrite <- map_fmap_compose. apply map_fmap_ext.
  intros k v _. apply rendered_idemp.
Qed.

(** X2. A serialized document has no [_id] key and no value that is a
    [datetime]. *)
Theorem serialize_doc_json_ready (doc : option document) (out : document) :
  serialize_doc doc = Some out →
  out !! "_id" = None ∧ ∀ k t, out !! k ≠ Some (VDatetime t).
Proof.
  destruct doc as [d|]; [|done].
  destruct (decide (d = ∅)) as [->|Hne].
  { rewrite serialize_doc_empty. intros [= <-].
    split; [done|]. intros k t. by rewrite lookup_empty. }
  rewrite serialize_doc_Some by done. intros [= <-]. split.
  - by rewrite lookup_fmap, renamed_no_id.
  - intros k t. rewrite lookup_fmap. destruct (_ !! k) as [v|]; simpl; [|done].
    intros [= Hv]. by apply rendered_not_datetime in Hv.
Qed.

(** X3. The keys of a serialized document are those of the document without
    [_id], together with [id] when the identifier is not [None]. *)
Theorem serialize_doc_keys (d out : document) :
  d ≠ ∅ →
  serialize_doc (Some d) = Some out →
  dom out = dom d ∖ {["_id"]} ∪ id_key (d !! "_id").
Proof.
  intros Hne. rewrite serialize_doc_Some by done. intros [= <-].
  rewrite dom_fmap_L. unfold id_key.
  destruct (d !! "_id") as [v|]; simpl.
  - destruct (is_none v).
    + rewrite dom_delete_L. symmetry. apply (right_id_L ∅ (∪)).
    + rewrite dom_insert_L, dom_delete_L. apply (comm_L (∪)).
  - rewrite dom_delete_L. symmetry. apply (right_id_L ∅ (∪)).
Qed.

Lemma with_id_lookup oid (doc : document) : with_id oid doc !! "_id" = Some (VObjectId oid).
Proof. apply lookup_insert_eq. Qed.

(** What [serialize_doc] makes of a document the driver hands out. *)
Lemma serialize_doc_handed_out oid (doc : document) :
  serialize_doc (Some (with_id oid doc)) =
    Some (rendered <$> <["id" := VStr (ObjectId_str oid)]> (delete "_id" doc)).
Proof.
  rewrite serialize_doc_Some by apply with_id_nonempty.
  rewrite with_id_lookup. simpl. unfold with_id. by rewrite delete_insert_eq.
Qed.

Lemma ProjectOut_of_id (oid : ObjectId) (doc : document) (out : ProjectOut) :
  ProjectOut_of (with_id oid doc) = Some out →
  po_id out = ObjectId_str oid.
Proof.
  unfold ProjectOut_of. rewrite serialize_doc_handed_out. simpl.
  unfold ProjectOut_validate.
  destruct (ProjectCreate_validate _); [|done]. simpl.
  rewrite !lookup_fmap, lookup_insert_eq. simpl.
  destruct (from_option _ _ (_ <$> _ !! "created_at")); [|done]. simpl.
  destruct (from_option _ _ (_ <$> _ !! "updated_at")); [|done]. simpl.
  by intros [= <-].
Qed.

(** X4. Whatever fields a stored document holds, the [id] of the
    [ProjectOut] built from it is the string of the identifier it is stored
    under. *)
Theorem stored_id_in_response (oid : ObjectId) (doc : document) (out : ProjectOut) :
  ProjectOut_of (with_id oid doc) = Some out →
  po_id out = ObjectId_str oid.
Proof. apply ProjectOut_of_id. Qed.

(** ** The models, again *)

Lemma not_field_ne k :
  k ∉ ProjectUpdate_fields →
  k ≠ "name" ∧ k ≠ "description" ∧ k ≠ "status" ∧ k ≠ "owner_email" ∧ k ≠ "due_date".
Proof.
  unfold ProjectUpdate_fields. rewrite !not_elem_of_cons. tauto.
Qed.

(** X5. A key that is not a field of the models has no part in validation:
    with or without it, a body validates to the same [ProjectCreate] and to
    the same [ProjectUpdate], or fails for both. *)
Theorem validation_ignores_other_keys (body : document) (k : string) (v : value) :
  k ∉ ProjectUpdate_fields →
  ProjectCreate_validate (<[k := v]> body) = ProjectCreate_validate body ∧
  ProjectUpdate_validate (<[k := v]> body) = ProjectUpdate_validate body.
Proof.
  intros (H1 & H2 & H3 & H4 & H5)%not_field_ne.
  unfold ProjectCreate_validate, ProjectUpdate_validate.
  by rewrite !lookup_insert_ne by done.
Qed.

Lemma ProjectCreate_model_dump_lookup (p : ProjectCreate) k :
  ProjectCreate_model_dump p !! k =
    if decide (k = "name") then Some (VStr (pc_name p))
    else if decide (k = "description") then Some (optional_str_value (pc_description p))
    else if decide (k = "status") then Some (VStr (pc_status p))
    else if decide (k = "owner_email") then Some (optional_str_value (pc_owner_email p))
    else if decide (k = "due_date") then Some (optional_str_value (pc_due_date p))
    else None.
Proof.
  unfold ProjectCreate_model_dump.
  repeat (case_decide; [subst k;
    repeat (rewrite lookup_insert_ne by done); by rewrite lookup_insert_eq|]).
  repeat (rewrite lookup_insert_ne by done). apply lookup_empty.
Qed.

Lemma ProjectCreate_model_dump_field (p : ProjectCreate) :
  ProjectCreate_model_dump p !! "name" = Some (VStr (pc_name p)) ∧
  ProjectCreate_model_dump p !! "description" = Some (optional_str_value (pc_description p)) ∧
  ProjectCreate_model_dump p !! "status" = Some (VStr (pc_status p)) ∧
  ProjectCreate_model_dump p !! "owner_email" = Some (optional_str_value (pc_owner_email p)) ∧
  ProjectCreate_model_dump p !! "due_date" = Some (optional_str_value (pc_due_date p)).
Proof.
  rewrite !ProjectCreate_model_dump_lookup. repeat split; repeat case_decide; congruence.
Qed.

(** X6. Dumping a validated [ProjectCreate] and validating the dump gives
    the model back; the dump holds the five fields of the model and no other
    key. *)
Theorem ProjectCreate_round_trip (body : document) (p : ProjectCreate) :
  ProjectCreate_validate body = Some p →
  ProjectCreate_validate (ProjectCreate_model_dump p) = Some p ∧
  ∀ k, is_Some (ProjectCreate_model_dump p !! k) ↔ k ∈ ProjectCreate_fields.
Proof.
  intros (Hok & _)%ProjectCreate_validate_Some. split.
  - destruct (ProjectCreate_model_dump_field p) as (H1 & H2 & H3 & H4 & H5).
    by apply ProjectCreate_validate_fields.
  - intros k. rewrite ProjectCreate_model_dump_lookup.
    unfold ProjectCreate_fields, ProjectUpdate_fields. rewrite !elem_of_cons, elem_of_nil.
    repeat case_decide; split; intros Hk; eauto 6;
      try (by destruct Hk); destruct_or?; done.
Qed.

(** X7. Dumping a validated [ProjectUpdate] with [exclude_unset] and
    validating the dump gives the model back, with the same fields set. *)
Theorem ProjectUpdate_round_trip (body : document) (p : ProjectUpdate) :
  ProjectUpdate_validate body = Some p →
  ProjectUpdate_validate (ProjectUpdate_model_dump_exclude_unset p) = Some p.
Proof.
  intros Hp. rewrite <- Hp. unfold ProjectUpdate_validate.
  assert (∀ k, k ∈ ProjectUpdate_fields →
            ProjectUpdate_model_dump_exclude_unset p !! k = body !! k) as Hk.
  { intros k Hk. rewrite model_dump_exclude_unset_lookup.
    by apply ProjectUpdate_validate_get. }
  rewrite !Hk; [done|..]; unfold ProjectUpdate_fields; rewrite !elem_of_cons; tauto.
Qed.

(** X8. A body that [ProjectCreate] accepts is a body that [ProjectUpdate]
    accepts, and the dump of the created model is an update that sets all
    five fields to the model's values. *)
Theorem create_body_is_update_body (body : document) (p : ProjectCreate) :
  ProjectCreate_validate body = Some p →
  is_Some (ProjectUpdate_validate body) ∧
  ProjectUpdate_validate (ProjectCreate_model_dump p) = Some (as_update p).
Proof.
  intros Hp. split.
  - revert Hp. unfold ProjectCreate_validate, ProjectUpdate_validate.
    destruct (body !! "name") as [vn|]; [|done]. simpl.
    destruct (str_field _ _ vn) as [name|] eqn:E1; [|done]. simpl.
    apply str_field_Some in E1 as [-> Hn]. simpl. rewrite Hn. simpl.
    destruct (body !! "description") as [vd|]; simpl;
      [destruct (optional_str_field _ _ vd); [|done]|]; simpl;
      (destruct (body !! "status") as [vs|]; simpl;
       [destruct (str_field None None vs) as [st|] eqn:E3; [|done];
        apply str_field_Some in E3 as [-> _]|]; simpl;
       (destruct (body !! "owner_email") as [vo|]; simpl;
        [destruct (optional_str_field _ _ vo); [|done]|]; simpl;
        (destruct (body !! "due_date") as [vdd|]; simpl;
         [destruct (optional_str_field _ _ vdd); [|done]|]; simpl; by eexists))).
  - apply ProjectCreate_validate_Some in Hp as ([Hn Hd] & _).
    destruct (ProjectCreate_model_dump_field p) as (H1 & H2 & H3 & H4 & H5).
    unfold ProjectUpdate_validate. rewrite H1, H2, H3, H4, H5.
    destruct p as [name description status owner_email due_date]. simpl in *.
    rewrite Hn. simpl.
    destruct description as [s|]; simpl; [rewrite (Hd s eq_refl); simpl|];
      by destruct owner_email, due_date.
Qed.

(** ** The handlers, again *)

Lemma Database_ext (d d' : Database) :
  db_name d' = db_name d →
  db_list_collection_names d' = db_list_collection_names d →
  db_project d' = db_project d →
  d' = d.
Proof. destruct d, d'; simpl. by intros -> -> ->. Qed.

Lemma with_project_Some c w d :
  db w = Some d →
  ∃ d', db (with_project c w) = Some d' ∧
        db_name d' = db_name d ∧
        db_list_collection_names d' = db_list_collection_names d ∧
        db_project d' = c.
Proof. intros Hdb. unfold with_project, with_db; simpl. rewrite Hdb; simpl. eauto. Qed.

(** The three ways an update can end, told by what it does to the world. *)
Lemma update_project_cases project_id payload w :
  let oid := ObjectId_of_str project_id in
  let patch := patch_of payload (clock w) in
  (update_project project_id payload w).2 = w ∨
  (∃ d, db w = Some d ∧ db_project d !! oid = None ∧
        is_valid project_id = true ∧
        ProjectUpdate_model_dump_exclude_unset payload ≠ ∅ ∧
        (update_project project_id payload w).2 = with_call (FindOneAndUpdate oid patch) w) ∨
  (∃ d old, db w = Some d ∧ db_project d !! oid = Some old ∧
        is_valid project_id = true ∧
        ProjectUpdate_model_dump_exclude_unset payload ≠ ∅ ∧
        (update_project project_id payload w).2 = updated_world oid patch old (db_project d) w).
Proof.
  intros oid patch.
  destruct (is_valid project_id) eqn:Hv;
    [|left; by rewrite update_project_invalid].
  destruct (decide (ProjectUpdate_model_dump_exclude_unset payload = ∅)) as [He|Hne];
    [left; by rewrite update_project_empty|].
  destruct (db w) as [d|] eqn:Hdb;
    [|left; by rewrite update_project_no_db].
  destruct (db_project d !! oid) as [old|] eqn:Hl.
  - right; right. exists d, old. by rewrite (update_project_found _ _ _ _ _ Hv Hne Hdb Hl).
  - right; left. exists d. by rewrite (update_project_missing _ _ _ _ Hv Hne Hdb Hl).
Qed.

Lemma updated_world_Some oid patch old c w d :
  db w = Some d →
  ∃ d', db (updated_world oid patch old c w) = Some d' ∧
        db_name d' = db_name d ∧
        db_list_collection_names d' = db_list_collection_names d ∧
        db_project d' = <[oid := patch ∪ old]> c.
Proof. intros Hdb. unfold updated_world. by apply with_project_Some. Qed.

Lemma patch_union_idemp (patch old : document) : patch ∪ (patch ∪ old) = patch ∪ old.
Proof. by rewrite (assoc_L (∪)), (idemp_L (∪)). Qed.

(** X9. Repeating an update leaves the store as the first one left it. *)
Theorem update_project_twice (project_id : string) (payload : ProjectUpdate) (w : World) :
  let w' := (update_project project_id payload w).2 in
  db (update_project project_id payload w').2 = db w'.
Proof.
  intros w'. subst w'.
  destruct (update_project_cases project_id payload w)
    as [Hw | [(d & Hdb & Hl & Hv & Hne & Hw) | (d & old & Hdb & Hl & Hv & Hne & Hw)]].
  - rewrite Hw. by rewrite Hw.
  - rewrite Hw.
    assert (db (with_call (FindOneAndUpdate (ObjectId_of_str project_id)
                             (patch_of payload (clock w))) w) = Some d) as Hdb' by done.
    by rewrite (update_project_missing _ _ _ _ Hv Hne Hdb' Hl).
  - rewrite Hw.
    destruct (updated_world_Some (ObjectId_of_str project_id) (patch_of payload (clock w))
                old (db_project d) w d Hdb) as (d' & Hdb' & Hn & Hc & Hp).
    assert (db_project d' !! ObjectId_of_str project_id =
              Some (patch_of payload (clock w) ∪ old)) as Hl'.
    { rewrite Hp. apply lookup_insert_eq. }
    rewrite (update_project_found _ _ _ _ _ Hv Hne Hdb' Hl'). cbn [snd].
    destruct (updated_world_Some (ObjectId_of_str project_id)
                (patch_of payload
                   (clock (updated_world (ObjectId_of_str project_id)
                             (patch_of payload (clock w)) old (db_project d) w)))
                (patch_of payload (clock w) ∪ old) (db_project d')
                _ d' Hdb') as (d'' & Hdb'' & Hn' & Hc' & Hp').
    rewrite Hdb'', Hdb'. f_equal. apply Database_ext; [done|done|].
    rewrite Hp'. change (clock (updated_world _ _ _ _ w)) with (clock w).
    by rewrite patch_union_idemp, Hp, insert_insert_eq.
Qed.

(** X10. Whatever it answers, an update keeps the identifiers of the
    collection as they are, and in every document it keeps every field that
    is neither a field of [ProjectUpdate] nor [updated_at]. *)
Theorem update_project_keeps (project_id : string) (payload : ProjectUpdate)
    (w : World) (d : Database) :
  db w = Some d →
  ∃ d', db (update_project project_id payload w).2 = Some d' ∧
    dom (db_project d') = dom (db_project d) ∧
    ∀ oid doc k, db_project d !! oid = Some doc →
      k ∉ ProjectUpdate_fields → k ≠ "updated_at" →
      ∃ doc', db_project d' !! oid = Some doc' ∧ doc' !! k = doc !! k.
Proof.
  intros Hdb.
  destruct (update_project_cases project_id payload w)
    as [Hw | [(d0 & Hdb0 & Hl & Hv & Hne & Hw) | (d0 & old & Hdb0 & Hl & Hv & Hne & Hw)]];
    rewrite Hw.
  - exists d. split; [done|]. split; [done|]. eauto.
  - exists d. split; [done|]. split; [done|]. eauto.
  - rewrite Hdb in Hdb0. injection Hdb0 as <-.
    destruct (updated_world_Some (ObjectId_of_str project_id) (patch_of payload (clock w))
                old (db_project d) w d Hdb) as (d' & Hdb' & _ & _ & Hp).
    exists d'. split; [done|]. rewrite Hp. split.
    + apply dom_insert_lookup_L. by eexists.
    + intros oid doc k Hdoc Hk Hk'.
      destruct (decide (oid = ObjectId_of_str project_id)) as [->|Hoid].
      * rewrite lookup_insert_eq. eexists. split; [done|].
        rewrite Hl in Hdoc. injection Hdoc as <-.
        apply lookup_union_r. rewrite patch_of_other by done.
        rewrite model_dump_exclude_unset_lookup. by rewrite ProjectUpdate_get_fields.
      * rewrite lookup_insert_ne by done. eauto.
Qed.

(** X11. What a successful update returns is the document as it is stored
    after the update, serialized into a [ProjectOut]. *)
Theorem update_project_returns_stored (project_id : string) (payload : ProjectUpdate)
    (w : World) (out : ProjectOut) :
  (update_project project_id payload w).1 = inr out →
  ∃ d' new,
    db (update_project project_id payload w).2 = Some d' ∧
    db_project d' !! ObjectId_of_str project_id = Some new ∧
    ProjectOut_of (with_id (ObjectId_of_str project_id) new) = Some out.
Proof.
  intros Hout.
  destruct (update_project_inr _ _ _ _ Hout) as (Hv & Hne & d & old & Hdb & Hl).
  rewrite (update_project_found _ _ _ _ _ Hv Hne Hdb Hl) in Hout |- *. cbn [fst snd] in *.
  destruct (updated_world_Some (ObjectId_of_str project_id) (patch_of payload (clock w))
              old (db_project d) w d Hdb) as (d' & Hdb' & _ & _ & Hp).
  exists d', (patch_of payload (clock w) ∪ old).
  split; [done|]. split; [rewrite Hp; apply lookup_insert_eq|].
  rewrite ProjectOut_new_of in Hout.
  destruct (ProjectOut_of _) as [out'|] eqn:E.
  - by injection Hout as <-.
  - destruct (ProjectOut_new_of_None _ (updated_world (ObjectId_of_str project_id)
        (patch_of payload (clock w)) old (db_project d) w) E) as [e He].
    rewrite He in Hout. done.
Qed.

Lemma name_none_not_out (kw : document) :
  kw !! "name" = Some VNone → ProjectOut_validate kw = None.
Proof.
  intros Hn. unfold ProjectOut_validate, ProjectCreate_validate. by rewrite Hn.
Qed.

(** X12. An update that sets [name] to null on an existing project is
    answered 500, and the stored name is [None] all the same. *)
Theorem update_name_null_500 (project_id : string) (payload : ProjectUpdate)
    (w : World) (d : Database) (old : document) :
  is_valid project_id = true →
  db w = Some d →
  db_project d !! ObjectId_of_str project_id = Some old →
  pu_name payload = Some None →
  status_of (update_project project_id payload w).1 = 500%Z ∧
  ∃ d' new,
    db (update_project project_id payload w).2 = Some d' ∧
    db_project d' !! ObjectId_of_str project_id = Some new ∧
    new !! "name" = Some VNone.
Proof.
  intros Hv Hdb Hl Hname.
  assert (ProjectUpdate_model_dump_exclude_unset payload !! "name" = Some VNone) as Hc.
  { rewrite model_dump_exclude_unset_lookup. unfold ProjectUpdate_get; simpl.
    by rewrite Hname. }
  assert (ProjectUpdate_model_dump_exclude_unset payload ≠ ∅) as Hne.
  { intros He. by rewrite He, lookup_empty in Hc. }
  assert ((patch_of payload (clock w) ∪ old) !! "name" = Some VNone) as Hnew.
  { apply lookup_union_Some_l. by rewrite patch_of_other. }
  rewrite (update_project_found _ _ _ _ _ Hv Hne Hdb Hl). cbn [fst snd]. split.
  - unfold ProjectOut_new. rewrite serialize_doc_handed_out.
    rewrite name_none_not_out; [done|].
    by rewrite lookup_fmap, lookup_insert_ne, lookup_delete_ne, Hnew.
  - destruct (updated_world_Some (ObjectId_of_str project_id) (patch_of payload (clock w))
                old (db_project d) w d Hdb) as (d' & Hdb' & _ & _ & Hp).
    exists d', (patch_of payload (clock w) ∪ old).
    split; [done|]. split; [rewrite Hp; apply lookup_insert_eq|done].
Qed.

(** X13. With a connected store, a delete touches no document but the one
    it names, and after a delete with a valid identifier that document is not
    in the store, whatever the answer was. *)
Theorem delete_project_frame (project_id : string) (w : World) (d : Database) :
  db w = Some d →
  ∃ d', db (delete_project project_id w).2 = Some d' ∧
    (∀ oid, oid ≠ ObjectId_of_str project_id →
       db_project d' !! oid = db_project d !! oid) ∧
    (is_valid project_id = true → db_project d' !! ObjectId_of_str project_id = None) ∧
    (is_valid project_id = false → d' = d).
Proof.
  intros Hdb. destruct (is_valid project_id) eqn:Hv.
  - destruct (db_project d !! ObjectId_of_str project_id) as [old|] eqn:Hl.
    + rewrite (delete_project_found _ _ _ _ Hv Hdb Hl). cbn [snd].
      destruct (with_project_Some (delete (ObjectId_of_str project_id) (db_project d))
                  (with_call (DeleteOne (ObjectId_of_str project_id)) w) d Hdb)
        as (d' & Hdb' & _ & _ & Hp).
      exists d'. split; [done|]. rewrite Hp. split; [|split; [|done]].
      * intros oid Hoid. by rewrite lookup_delete_ne.
      * intros _. apply lookup_delete_eq.
    + rewrite (delete_project_missing _ _ _ Hv Hdb Hl). exists d. by eauto.
  - rewrite (delete_project_invalid _ _ Hv). exists d. by eauto.
Qed.

(** X14. After a delete with a valid identifier on a connected store, an
    update of the same identifier that sets a field is answered 404. *)
Theorem update_after_delete_404 (project_id : string) (payload : ProjectUpdate)
    (w : World) :
  is_valid project_id = true →
  is_Some (db w) →
  ProjectUpdate_model_dump_exclude_unset payload ≠ ∅ →
  (update_project project_id payload (delete_project project_id w).2).1 =
    inl (HTTPException 404 "Project not found").
Proof.
  intros Hv [d Hdb] Hne.
  destruct (db_project d !! ObjectId_of_str project_id) as [old|] eqn:Hl.
  - rewrite (delete_project_found _ _ _ _ Hv Hdb Hl). cbn [snd].
    destruct (with_project_Some (delete (ObjectId_of_str project_id) (db_project d))
                (with_call (DeleteOne (ObjectId_of_str project_id)) w) d Hdb)
      as (d' & Hdb' & _ & _ & Hp).
    rewrite (update_project_missing _ _ _ d' Hv Hne Hdb'); [done|].
    rewrite Hp. apply lookup_delete_eq.
  - rewrite (delete_project_missing _ _ _ Hv Hdb Hl). cbn [snd].
    by rewrite (update_project_missing _ _ _ d Hv Hne).
Qed.

Lemma create_project_ok (payload : ProjectCreate) (w : World) (d : Database) :
  ProjectCreate_ok payload →
  db w = Some d →
  db_project d !! oid_gen w (oid_count w) = None →
  create_project payload w =
    (inr (created_out payload (oid_gen w (oid_count w)) (clock w)),
     created_world (oid_gen w (oid_count w)) (created_doc payload (clock w))
       (db_project d) w).
Proof.
  intros Hok Hdb Hfresh. rewrite (create_project_run payload w d Hdb Hfresh).
  by rewrite ProjectOut_new_of, created_doc_serialized.
Qed.

Lemma created_world_Some oid doc c w d :
  db w = Some d →
  ∃ d', db (created_world oid doc c w) = Some d' ∧
        db_name d' = db_name d ∧
        db_list_collection_names d' = db_list_collection_names d ∧
        db_project d' = <[oid := doc]> c.
Proof.
  intros Hdb. unfold created_world.
  by apply (with_project_Some _ (with_oid_count _ (with_call _ w)) d).
Qed.

(** X15. For a validated payload, a connected store and a fresh identifier,
    [create_project] answers the payload's fields with the new identifier as
    [id] and the current time as [created_at].  The store gains one document
    under that identifier, made of the five fields and [created_at], and
    keeps its other documents; the calls made are one insert and one
    find. *)
Theorem create_project_effect (payload : ProjectCreate) (w : World) (d : Database) :
  ProjectCreate_ok payload →
  db w = Some d →
  db_project d !! oid_gen w (oid_count w) = None →
  let oid := oid_gen w (oid_count w) in
  let r := create_project payload w in
  r.1 = inr (created_out payload oid (clock w)) ∧
  calls r.2 = (calls w ++ [InsertOne (created_doc payload (clock w)); FindOne oid])%list ∧
  ∃ d' doc,
    db r.2 = Some d' ∧
    db_project d' !! oid = Some doc ∧
    (∀ k, doc !! k =
          if decide (k = "created_at") then Some (VDatetime (clock w))
          else ProjectCreate_model_dump payload !! k) ∧
    (∀ oid', oid' ≠ oid → db_project d' !! oid' = db_project d !! oid').
Proof.
  intros Hok Hdb Hfresh oid r. subst r.
  rewrite (create_project_ok payload w d Hok Hdb Hfresh). cbn [fst snd].
  split; [done|]. split.
  { unfold created_world, with_call, with_project, with_db, with_oid_count. cbn [calls].
    by rewrite <- (assoc_L (++)). }
  destruct (created_world_Some oid (created_doc payload (clock w)) (db_project d) w d Hdb)
    as (d' & Hdb' & _ & _ & Hp).
  exists d', (created_doc payload (clock w)). split; [done|]. rewrite Hp.
  split; [apply lookup_insert_eq|]. split.
  - intros k. unfold created_doc. case_decide as Hk.
    + subst k. apply lookup_insert_eq.
    + by rewrite lookup_insert_ne.
  - intros oid' Hoid. by rewrite lookup_insert_ne.
Qed.

(** X16. Deleting a project through the [id] that its creation returned
    answers ok and puts the store back as it was before the creation,
    provided the identifier codec reads back the string it writes for that
    identifier. *)
Theorem delete_created_restores (payload : ProjectCreate) (w : World) (d : Database) :
  ProjectCreate_ok payload →
  db w = Some d →
  db_project d !! oid_gen w (oid_count w) = None →
  let oid := oid_gen w (oid_count w) in
  is_valid (ObjectId_str oid) = true →
  ObjectId_of_str (ObjectId_str oid) = oid →
  ∃ out, (create_project payload w).1 = inr out ∧
    (delete_project (po_id out) (create_project payload w).2).1 = inr true ∧
    db (delete_project (po_id out) (create_project payload w).2).2 = db w.
Proof.
  intros Hok Hdb Hfresh oid Hv Hrt.
  rewrite (create_project_ok payload w d Hok Hdb Hfresh). cbn [fst snd].
  eexists. split; [done|]. cbn [created_out po_id]. fold oid.
  destruct (created_world_Some oid (created_doc payload (clock w)) (db_project d) w d Hdb)
    as (d' & Hdb' & Hn & Hc & Hp).
  assert (db_project d' !! ObjectId_of_str (ObjectId_str oid) =
            Some (created_doc payload (clock w))) as Hl.
  { rewrite Hrt, Hp. apply lookup_insert_eq. }
  rewrite (delete_project_found _ _ _ _ Hv Hdb' Hl). cbn [fst snd]. split; [done|].
  destruct (with_project_Some (delete (ObjectId_of_str (ObjectId_str oid)) (db_project d'))
              (with_call (DeleteOne (ObjectId_of_str (ObjectId_str oid)))
                 (created_world oid (created_doc payload (clock w)) (db_project d) w))
              d' Hdb') as (d'' & Hdb'' & Hn' & Hc' & Hp').
  rewrite Hdb'', Hdb. f_equal. apply Database_ext; [congruence|congruence|].
  rewrite Hp', Hrt, Hp. by apply delete_insert_id.
Qed.

(** X17. An update through the [id] that a creation returned reaches the
    created document: it is not answered 400 or 404 when it sets a field, and
    the stored document is the patch laid over the created one, under the
    same proviso on the codec. *)
Theorem update_created_reaches (payload : ProjectCreate) (changes : ProjectUpdate)
    (w : World) (d : Database) :
  ProjectCreate_ok payload →
  db w = Some d →
  db_project d !! oid_gen w (oid_count w) = None →
  let oid := oid_gen w (oid_count w) in
  is_valid (ObjectId_str oid) = true →
  ObjectId_of_str (ObjectId_str oid) = oid →
  ProjectUpdate_model_dump_exclude_unset changes ≠ ∅ →
  ∃ out, (create_project payload w).1 = inr out ∧
    let r := update_project (po_id out) changes (create_project payload w).2 in
    status_of r.1 ≠ 400%Z ∧ status_of r.1 ≠ 404%Z ∧
    ∃ d', db r.2 = Some d' ∧
      db_project d' !! oid =
        Some (patch_of changes (clock w) ∪ created_doc payload (clock w)).
Proof.
  intros Hok Hdb Hfresh oid Hv Hrt Hne.
  rewrite (create_project_ok payload w d Hok Hdb Hfresh). cbn [fst snd].
  eexists. split; [done|]. cbn [created_out po_id]. fold oid.
  destruct (created_world_Some oid (created_doc payload (clock w)) (db_project d) w d Hdb)
    as (d' & Hdb' & Hn & Hc & Hp).
  assert (db_project d' !! ObjectId_of_str (ObjectId_str oid) =
            Some (created_doc payload (clock w))) as Hl.
  { rewrite Hrt, Hp. apply lookup_insert_eq. }
  rewrite (update_project_found _ _ _ _ _ Hv Hne Hdb' Hl). cbn [fst snd].
  split; [|split].
  - by destruct (ProjectOut_new_status
                   (serialize_doc (Some (with_id (ObjectId_of_str (ObjectId_str oid))
                      (patch_of changes
                         (clock (created_world oid (created_doc payload (clock w))
                                   (db_project d) w))
                       ∪ created_doc payload (clock w)))))
                   (updated_world (ObjectId_of_str (ObjectId_str oid))
                      (patch_of changes
                         (clock (created_world oid (created_doc payload (clock w))
                                   (db_project d) w)))
                      (created_doc payload (clock w)) (db_project d')
                      (created_world oid (created_doc payload (clock w)) (db_project d) w)))
      as [-> | ->].
  - by destruct (ProjectOut_new_status
                   (serialize_doc (Some (with_id (ObjectId_of_str (ObjectId_str oid))
                      (patch_of changes
                         (clock (created_world oid (created_doc payload (clock w))
                                   (db_project d) w))
                       ∪ created_doc payload (clock w)))))
                   (updated_world (ObjectId_of_str (ObjectId_str oid))
                      (patch_of changes
                         (clock (created_world oid (created_doc payload (clock w))
                                   (db_project d) w)))
                      (created_doc payload (clock w)) (db_project d')
                      (created_world oid (created_doc payload (clock w)) (db_project d) w)))
      as [-> | ->].
  - destruct (updated_world_Some (ObjectId_of_str (ObjectId_str oid))
                (patch_of changes
                   (clock (created_world oid (created_doc payload (clock w))
                             (db_project d) w)))
                (created_doc payload (clock w)) (db_project d')
                (created_world oid (created_doc payload (clock w)) (db_project d) w)
                d' Hdb') as (d'' & Hdb'' & _ & _ & Hp'').
    exists d''. split; [done|]. rewrite Hp'', Hrt. apply lookup_insert_eq.
Qed.

(** ** Listing, again *)

Lemma Forall2_ProjectOut_ids (l : list (ObjectId * document)) (outs : list ProjectOut) :
  Forall2 (λ doc out, ProjectOut_of doc = Some out) ((λ kv, with_id kv.1 kv.2) <$> l) outs →
  po_id <$> outs = (λ kv, ObjectId_str kv.1) <$> l.
Proof.
  revert outs. induction l as [|[oid doc] l IH]; intros outs Hall.
  - by apply Forall2_nil_inv_l in Hall as ->.
  - rewrite fmap_cons in Hall.
    apply Forall2_cons_inv_l in Hall as (out & outs' & Hout & Hall & ->).
    rewrite !fmap_cons. f_equal.
    + by apply ProjectOut_of_id in Hout.
    + by apply IH.
Qed.

(** X18. When the list handler returns, it returns one project for each
    fetched document, in the order of the fetch, and the [id] of each is the
    string of the identifier of its document. *)
Theorem list_projects_ids (limit : option Z) (w : World) (d : Database)
    (outs : list ProjectOut) :
  db w = Some d →
  (list_projects limit w).1 = inr outs →
  length outs = length (fetched (default 100%Z limit) (db_project d)) ∧
  po_id <$> outs =
    (λ kv, ObjectId_str kv.1) <$>
      take (Z.to_nat (default 100%Z limit)) (map_to_list (db_project d)).
Proof.
  intros Hdb. rewrite (list_projects_run _ _ _ Hdb).
  intros Hall%mapM_ProjectOut_new_inv. split.
  - symmetry. by eapply Forall2_length.
  - apply Forall2_ProjectOut_ids. unfold fetched in Hall. by rewrite fmap_take.
Qed.

(** ** [PyObjectId] *)

Lemma delete_project_no_db project_id w :
  is_valid project_id = true →
  db w = None →
  delete_project project_id w =
    (inl (Error "TypeError" "'NoneType' object is not subscriptable"), w).
Proof.
  intros Hv Hdb. unfold delete_project. rewrite Hv; simpl.
  unfold delete_one, collection. st_unfold. by rewrite Hdb.
Qed.

(** X19. [PyObjectId.validate] accepts a string exactly when the delete
    handler does not refuse it as an invalid project id, and it then yields
    the identifier the handlers look up; what it yields it accepts again,
    unchanged. *)
Theorem PyObjectId_validate_agrees (s : string) (w : World) :
  ((∃ o, PyObjectId_validate (VStr s) = inr o) ↔
     (delete_project s w).1 ≠ inl (HTTPException 400 "Invalid project id")) ∧
  (∀ o, PyObjectId_validate (VStr s) = inr o → o = ObjectId_of_str s) ∧
  (∀ v o, PyObjectId_validate v = inr o → PyObjectId_validate (VObjectId o) = inr o).
Proof.
  split; [|split].
  - unfold PyObjectId_validate. destruct (is_valid s) eqn:Hv; simpl.
    + split; [|by eauto]. intros _.
      destruct (db w) as [d|] eqn:Hdb; [|by rewrite delete_project_no_db].
      destruct (db_project d !! ObjectId_of_str s) as [old|] eqn:Hl.
      * by rewrite (delete_project_found _ _ _ _ Hv Hdb Hl).
      * by rewrite (delete_project_missing _ _ _ Hv Hdb Hl).
    + rewrite delete_project_invalid by done. split; [by intros [o Ho]|done].
  - intros o. unfold PyObjectId_validate. destruct (is_valid s); simpl; [|done].
    by intros [= <-].
  - done.
Qed.

(** ** Diagnostics, again *)

(** X20. In every report of the diagnostics endpoint [backend] is
    ["✅ Running"], and the [database] field never keeps its initial value
    ["❌ Not Available"] nor the intermediate ["✅ Available"]: it tells a
    missing handle, a working connection, or an error. *)
Theorem test_database_database_field (w : World) :
  ∃ r, test_database w = (inr r, w) ∧
    backend r = "✅ Running" ∧
    database r ≠ "❌ Not Available" ∧
    database r ≠ "✅ Available" ∧
    (db w = None ↔ database r = "⚠️  Available but not initialized") ∧
    (database r = "✅ Connected & Working" ↔
       ∃ d names, db w = Some d ∧ (∀ e, db_name d ≠ AttrRaises e) ∧
                  db_list_collection_names d = inr names).
Proof.
  unfold test_database, name_or_connected, list_collection_names. st_unfold.
  destruct (db w) as [d|] eqn:Hdb; simpl;
    [destruct (db_name d) as [|nm|e] eqn:Hn; simpl;
      [destruct (db_list_collection_names d) as [e|names] eqn:Hc; simpl ..| ] |];
    (eexists; split; [reflexivity|]); simpl;
    (split; [reflexivity|]);
    (split; [intros Heq; discriminate Heq|]);
    (split; [intros Heq; discriminate Heq|]);
    (split; [split; intros Heq; discriminate Heq || reflexivity|]);
    (split; [intros Heq; try discriminate Heq|
             intros (d0 & names0 & Hd0 & Hno & Hl0); simplify_eq; try congruence]).
  all: try (exfalso; by eapply Hno).
  all: try (eexists _, _; split; [reflexivity|split; [intros e' He'; congruence|eassumption]]).
Qed.

(** X21. The fields of a report agree with one another: [collections] is
    not empty only when [database] tells a working connection, and then
    [connection_status] is ["Connected"]; [connection_status] is
    ["Connected"] exactly when there is a handle whose [name] could be
    read. *)
Theorem test_database_consistent (w : World) :
  ∃ r, test_database w = (inr r, w) ∧
    (collections r ≠ [] → database r = "✅ Connected & Working") ∧
    (database r = "✅ Connected & Working" → connection_status r = "Connected") ∧
    (connection_status r = "Connected" ↔
       ∃ d, db w = Some d ∧ ∀ e, db_name d ≠ AttrRaises e) ∧
    (connection_status r ≠ "Connected" → connection_status r = "Not Connected").
Proof.
  unfold test_database, name_or_connected, list_collection_names. st_unfold.
  destruct (db w) as [d|] eqn:Hdb; simpl;
    [destruct (db_name d) as [|nm|e] eqn:Hn; simpl;
      [destruct (db_list_collection_names d) as [e|names] eqn:Hc; simpl ..| ] |];
    (eexists; split; [reflexivity|]); simpl;
    (split; [intros Hcol; try reflexivity; by destruct Hcol|]);
    (split; [intros Heq; try reflexivity; discriminate Heq|]);
    (split; [split; [intros Heq; try discriminate Heq|
                     intros (d0 & Hd0 & Hno); simplify_eq; try reflexivity]|
             intros Hns; try reflexivity; by destruct Hns]).
  all: try (exfalso; by eapply Hno).
  all: try (eexists; split; [reflexivity|intros e' He'; congruence]).
Qed.

End Coverage.

(** * The scenario, through the theorems *)

Section Witnesses.
#[local] Existing Instance Hex24.hex24.

(** Closed, decidable facts about the scenario are settled by evaluation. *)
Ltac evaluate :=
  lazymatch goal with
  | |- ?P => apply (bool_decide_eq_true_1 P); vm_compute; reflexivity
  end.

Lemma lookup_nonempty (m : document) k v : m !! k = Some v → m ≠ ∅.
Proof. intros Hk He. rewrite He, lookup_empty in Hk. discriminate. Defined.

Lemma serialize_doc_spec_witness :
  ∃ out, serialize_doc (Some (with_id (ObjectId_of_str launch_id) launch_doc)) = Some out ∧
    out !! "_id" = None ∧
    out !! "id" = Some (VStr (py_str (VObjectId (ObjectId_of_str launch_id)))) ∧
    py_str (VObjectId (ObjectId_of_str launch_id)) = launch_id ∧
    out !! "created_at" = Some (VStr (isoformat noon)) ∧
    isoformat noon = "2024-01-02T12:00:00+00:00" ∧
    out !! "name" = Some (VStr "Launch").
Proof.
  destruct (serialize_doc_spec (Some (with_id (ObjectId_of_str launch_id) launch_doc)))
    as [_ Hs].
  destruct (Hs _ eq_refl (with_id_nonempty _ _))
    as (out & Hout & Hid & Hren & Hdt & Hother & _).
  exists out. split; [exact Hout|]. split; [exact Hid|].
  split; [|split; [|split; [|split]]].
  - apply Hren; [evaluate|discriminate].
  - evaluate.
  - apply Hdt; [discriminate|discriminate|evaluate].
  - evaluate.
  - rewrite Hother; [evaluate|discriminate|discriminate|].
    intros t Ht.
    assert (with_id (ObjectId_of_str launch_id) launch_doc !! "name" = Some (VStr "Launch"))
      as Hn by evaluate.
    rewrite Hn in Ht. discriminate Ht.
Defined.

Lemma invalid_id_400_witness :
  is_valid "not-an-id" = false ∧
  status_of (update_project "not-an-id" status_completed w1).1 = 400%Z ∧
  status_of (delete_project "not-an-id" w1).1 = 400%Z ∧
  (update_project "not-an-id" status_completed w1).2 = w1 ∧
  (delete_project "not-an-id" w1).2 = w1.
Proof.
  assert (is_valid "not-an-id" = false) as Hv by evaluate.
  split; [exact Hv|].
  destruct (invalid_id_400 "not-an-id" status_completed w1 Hv)
    as ((du & Hu) & (dd & Hd) & Hsu & Hsd & _).
  split; [exact Hsu|]. split; [exact Hsd|].
  rewrite Hu, Hd. split; reflexivity.
Defined.

Lemma update_project_frame_witness :
  is_valid launch_id = true ∧
  ProjectUpdate_model_dump_exclude_unset status_completed ≠ ∅ ∧
  db (at_time later w1) = Some db1 ∧
  db_project db1 !! ObjectId_of_str launch_id = Some launch_doc ∧
  launch_doc !! "name" = Some (VStr "Launch") ∧
  ∃ d' new,
    db (update_project launch_id status_completed (at_time later w1)).2 = Some d' ∧
    db_project d' !! ObjectId_of_str launch_id = Some new ∧
    new !! "status" = Some (VStr "completed") ∧
    new !! "name" = launch_doc !! "name" ∧
    new !! "updated_at" = Some (VDatetime (clock (at_time later w1))).
Proof.
  assert (is_valid launch_id = true) as Hv by evaluate.
  assert (ProjectUpdate_model_dump_exclude_unset status_completed ≠ ∅) as Hne.
  { apply (lookup_nonempty _ "status" (VStr "completed")). evaluate. }
  assert (db (at_time later w1) = Some db1) as Hdb by evaluate.
  assert (db_project db1 !! ObjectId_of_str launch_id = Some launch_doc) as Hold by evaluate.
  split; [exact Hv|]. split; [exact Hne|]. split; [exact Hdb|]. split; [exact Hold|].
  split; [evaluate|].
  destruct (update_project_frame launch_id status_completed (at_time later w1) db1
              launch_doc Hv Hne Hdb Hold)
    as (d' & new & Hdb' & Hnew & Hset & Hkeep & Hupd & _).
  exists d', new. split; [exact Hdb'|]. split; [exact Hnew|].
  split; [|split; [|exact Hupd]].
  - apply Hset. evaluate.
  - apply Hkeep; [evaluate|discriminate].
Defined.

Lemma update_patch_spec_witness :
  ProjectUpdate_validate {["status" := VStr "completed"; "extra" := VInt 1]}
    = Some status_completed ∧
  ProjectUpdate_model_dump_exclude_unset status_completed !! "status"
    = Some (VStr "completed") ∧
  ProjectUpdate_model_dump_exclude_unset status_completed !! "extra" = None ∧
  calls (update_project launch_id status_completed (at_time later w1)).2 =
    (calls (at_time later w1) ++
       [FindOneAndUpdate (ObjectId_of_str launch_id)
          (<["updated_at" := VDatetime (clock (at_time later w1))]>
             (ProjectUpdate_model_dump_exclude_unset status_completed))])%list.
Proof.
  assert (ProjectUpdate_validate {["status" := VStr "completed"; "extra" := VInt 1]}
            = Some status_completed) as Hp by evaluate.
  split; [exact Hp|].
  destruct (update_patch_spec _ status_completed launch_id (at_time later w1) Hp)
    as (Hfields & _ & Hcall).
  split; [|split].
  - rewrite Hfields. evaluate.
  - rewrite Hfields. evaluate.
  - apply Hcall.
    + apply (lookup_nonempty _ "status" (VStr "completed")). evaluate.
    + evaluate.
    + evaluate.
Defined.

Lemma null_field_is_a_change_witness :
  ProjectUpdate_validate {["name" := VNone]} = Some name_null ∧
  "name" ∈ ProjectUpdate_fields ∧
  ({["name" := VNone]} : document) !! "name" = Some VNone ∧
  launch_doc !! "name" = Some (VStr "Launch") ∧
  status_of (update_project launch_id name_null w1).1 ≠ 400%Z ∧
  ∃ d' new,
    db (update_project launch_id name_null w1).2 = Some d' ∧
    db_project d' !! ObjectId_of_str launch_id = Some new ∧
    new !! "name" = Some VNone.
Proof.
  assert (ProjectUpdate_validate {["name" := VNone]} = Some name_null) as Hp by evaluate.
  assert ("name" ∈ ProjectUpdate_fields) as Hk by evaluate.
  assert (({["name" := VNone]} : document) !! "name" = Some VNone) as Hb by evaluate.
  split; [exact Hp|]. split; [exact Hk|]. split; [exact Hb|].
  split; [evaluate|].
  destruct (null_field_is_a_change _ name_null "name" Hp Hk Hb) as (_ & _ & Hrun & _).
  assert (is_valid launch_id = true) as Hv by evaluate.
  destruct (Hrun launch_id w1 Hv) as (Hstatus & _ & Hstore).
  split; [exact Hstatus|].
  apply (Hstore db1 launch_doc); evaluate.
Defined.

Lemma not_found_404_witness :
  is_valid other_id = true ∧
  is_valid launch_id = true ∧
  db w1 = Some db1 ∧
  (update_project other_id status_completed w1).1 =
    inl (HTTPException 404 "Project not found") ∧
  (delete_project other_id w1).1 = inl (HTTPException 404 "Project not found") ∧
  (delete_project launch_id w1).1 = inr true ∧
  (delete_project launch_id (delete_project launch_id w1).2).1 =
    inl (HTTPException 404 "Project not found").
Proof.
  assert (is_valid other_id = true) as Hvo by evaluate.
  assert (is_valid launch_id = true) as Hvl by evaluate.
  assert (db w1 = Some db1) as Hdb by evaluate.
  split; [exact Hvo|]. split; [exact Hvl|]. split; [exact Hdb|].
  destruct (not_found_404 other_id w1 db1 Hvo Hdb) as [Hmissing _].
  destruct (not_found_404 launch_id w1 db1 Hvl Hdb) as [_ Hfound].
  destruct Hmissing as (Hupd & Hdel & _); [evaluate|].
  destruct (Hfound launch_doc) as [Hfirst Hsecond]; [evaluate|].
  split; [|split; [exact Hdel|split; [exact Hfirst|exact Hsecond]]].
  apply Hupd. apply (lookup_nonempty _ "status" (VStr "completed")). evaluate.
Defined.

Lemma list_projects_spec_witness :
  db w1 = Some db1 ∧
  list_projects None w1 = list_projects (Some 100%Z) w1 ∧
  calls (list_projects None w1).2 = (calls w1 ++ [Find 100%Z])%list ∧
  ∃ out, (list_projects None w1).1 = inr [out] ∧ po_name out = "Launch".
Proof.
  assert (db w1 = Some db1) as Hdb by evaluate.
  split; [exact Hdb|].
  destruct (list_projects_spec None w1 db1 Hdb) as (Hdefault & Hcalls & _ & Hall & _).
  split; [exact Hdefault|]. split; [exact Hcalls|].
  exists (default
            {| po_name := ""; po_description := None; po_status := "";
               po_owner_email := None; po_due_date := None; po_id := "";
               po_created_at := None; po_updated_at := None |}
            (ProjectOut_of (with_id (ObjectId_of_str launch_id) launch_doc))).
  split; [|evaluate].
  apply Hall. evaluate.
Defined.

Lemma create_validation_witness :
  ({["name" := VStr "Launch"]} : document) !! "status" = None ∧
  (∃ out, (post_projects {["name" := VStr "Launch"]} w0).1 = inr out ∧
          po_status out = "active" ∧ po_name out = "Launch") ∧
  status_of (post_projects {["name" := VStr ""]} w0).1 = 422%Z ∧
  status_of (post_projects {["description" := VStr "no name"]} w0).1 = 422%Z ∧
  py_len accented_name = 61%nat ∧
  String.length accented_name = 122%nat ∧
  name_in_bounds {["name" := VStr accented_name]} ∧
  (∃ out, (post_projects {["name" := VStr accented_name]} w0).1 = inr out ∧
          po_name out = accented_name).
Proof.
  assert (({["name" := VStr "Launch"]} : document) !! "status" = None) as Hs by evaluate.
  split; [exact Hs|].
  split; [|split; [|split; [|split; [evaluate|split; [evaluate|]]]]].
  - destruct (create_validation {["name" := VStr "Launch"]} w0) as (_ & _ & Hdefault).
    destruct (Hdefault Hs
                {| pc_name := "Launch"; pc_description := None; pc_status := "active";
                   pc_owner_email := None; pc_due_date := None |})
      as [_ Hrun]; [evaluate|].
    destruct (Hrun empty_db) as (out & d' & doc & Hout & Hstatus & Hname & _);
      [evaluate|evaluate|].
    exists out. split; [exact Hout|]. split; [exact Hstatus|exact Hname].
  - destruct (create_validation {["name" := VStr ""]} w0) as (_ & Hbad & _).
    apply Hbad. left. intros (s & Hs' & Hlen).
    assert (({["name" := VStr ""]} : document) !! "name" = Some (VStr "")) as Hn by evaluate.
    rewrite Hn in Hs'. injection Hs' as <-. simpl in Hlen. lia.
  - destruct (create_validation {["description" := VStr "no name"]} w0) as (_ & Hbad & _).
    apply Hbad. left. intros (s & Hs' & _).
    assert (({["description" := VStr "no name"]} : document) !! "name" = None) as Hn
      by evaluate.
    rewrite Hn in Hs'. discriminate Hs'.
  - assert (ProjectCreate_validate {["name" := VStr accented_name]} = Some accented_payload)
      as Hp by evaluate.
    assert (({["name" := VStr accented_name]} : document) !! "status" = None) as Hst
      by evaluate.
    destruct (create_validation {["name" := VStr accented_name]} w0)
      as (Hbounds & _ & Hdefault).
    split; [exact (proj1 (Hbounds _ Hp))|].
    destruct (Hdefault Hst _ Hp) as [_ Hrun].
    destruct (Hrun empty_db) as (out & d' & doc & Hout & _ & Hname & _);
      [evaluate|evaluate|].
    exists out. split; [exact Hout|exact Hname].
Defined.

Lemma test_database_degrades_witness :
  ∃ r, test_database w_listing_fails = (inr r, w_listing_fails) ∧
    database r = "⚠️  Connected but Error: " +:+ str_prefix 50 (exn_str listing_error) ∧
    str_prefix 50 (exn_str listing_error)
      = "connexion refusée par le serveur de données : déla" ∧
    py_len (str_prefix 50 (exn_str listing_error)) = 50%nat ∧
    String.length (str_prefix 50 (exn_str listing_error)) = 53%nat ∧
    collections r = [].
Proof.
  destruct (test_database_degrades w_listing_fails)
    as (r & Hr & _ & _ & Hlist & _ & _ & Hcols & _).
  exists r. split; [exact Hr|].
  split; [|split; [evaluate|split; [evaluate|split; [evaluate|]]]].
  - apply (Hlist db_listing_fails listing_error); [evaluate| |evaluate].
    intros e He. assert (db_name db_listing_fails = AttrValue "app") as Hn by evaluate.
    rewrite Hn in He. discriminate He.
  - destruct Hcols as [Hnil | (d & names & Hdb & Hnames & _)]; [exact Hnil|].
    assert (db w_listing_fails = Some db_listing_fails) as Hdb' by evaluate.
    rewrite Hdb' in Hdb. injection Hdb as <-.
    assert (db_list_collection_names db_listing_fails = inl listing_error) as Hl by evaluate.
    rewrite Hl in Hnames. discriminate Hnames.
Defined.

Lemma env_fields_from_environment_witness :
  env_nonempty w_url_given "DATABASE_URL" ∧
  ¬ env_nonempty w_url_given "DATABASE_NAME" ∧
  ∃ r, test_database w_url_given = (inr r, w_url_given) ∧
    database_url r = Some "✅ Set" ∧
    database_name r = Some "❌ Not Set".
Proof.
  assert (environ w_url_given !! "DATABASE_URL" = Some "mongodb://localhost") as Hu by evaluate.
  assert (environ w_url_given !! "DATABASE_NAME" = None) as Hn by evaluate.
  assert (env_nonempty w_url_given "DATABASE_URL") as Hset.
  { exists "mongodb://localhost". split; [exact Hu|discriminate]. }
  assert (¬ env_nonempty w_url_given "DATABASE_NAME") as Hunset.
  { intros (v & Hv & _). rewrite Hn in Hv. discriminate Hv. }
  split; [exact Hset|]. split; [exact Hunset|].
  destruct (env_fields_from_environment w_url_given) as (r & Hr & Hurl & _ & _ & Hname & _).
  exists r. split; [exact Hr|]. split; [exact (Hurl Hset)|exact (Hname Hunset)].
Defined.

(** C4, as stated, fails: with a valid identifier that matches no document
    and a body that sets no field, the update handler answers 400. *)
Lemma update_missing_without_fields_400 :
  is_valid other_id = true ∧
  db w1 = Some db1 ∧
  db_project db1 !! ObjectId_of_str other_id = None ∧
  ProjectUpdate_validate ∅ = Some no_fields ∧
  (update_project other_id no_fields w1).1 = inl (HTTPException 400 "No changes provided") ∧
  status_of (update_project other_id no_fields w1).1 ≠ 404%Z.
Proof. repeat split; evaluate. Qed.

(** C8, as stated, fails: after a project's name has been set to null
    through the update handler, the list handler answers 500. *)
Lemma list_after_null_name_500 :
  status_of (post_projects {["name" := VStr "Launch"]} w0).1 = 200%Z ∧
  is_Some (db w2) ∧
  length (fetched 100 (db_project (default empty_db (db w2)))) = 1%nat ∧
  (list_projects None w2).1 =
    inl (Error "ValidationError" "validation error for ProjectOut") ∧
  status_of (list_projects None w2).1 = 500%Z.
Proof. repeat split; evaluate. Qed.

(** C10, as stated, fails: [DATABASE_URL] is set in both environments, and
    the report says "Not Set" for the one where it is the empty string. *)
Lemma empty_DATABASE_URL_reported_not_set :
  environ w_url_empty !! "DATABASE_URL" = Some "" ∧
  environ w_url_given !! "DATABASE_URL" = Some "mongodb://localhost" ∧
  database_url <$> report w_url_empty = Some (Some "❌ Not Set") ∧
  database_url <$> report w_url_given = Some (Some "✅ Set").
Proof. repeat split; evaluate. Qed.

End Witnesses.

(** * The scenario, through the further properties *)

Section CoverageWitnesses.
#[local] Existing Instance Hex24.hex24.

Ltac evaluate :=
  lazymatch goal with
  | |- ?P => apply (bool_decide_eq_true_1 P); vm_compute; reflexivity
  end.

Lemma launch_payload_ok : ProjectCreate_ok launch_payload.
Proof. split; [evaluate|]. intros s Hs. discriminate Hs. Defined.

Lemma changes_nonempty (m : document) k v : m !! k = Some v → m ≠ ∅.
Proof. intros Hk He. rewrite He, lookup_empty in Hk. discriminate Hk. Defined.

Lemma serialize_doc_json_ready_witness :
  serialize_doc (Some launch_handed_out) = Some launch_serialized ∧
  launch_handed_out !! "created_at" = Some (VDatetime noon) ∧
  launch_serialized !! "_id" = None ∧
  ∀ k t, launch_serialized !! k ≠ Some (VDatetime t).
Proof.
  assert (serialize_doc (Some launch_handed_out) = Some launch_serialized) as Hs by evaluate.
  split; [exact Hs|]. split; [evaluate|].
  exact (serialize_doc_json_ready _ _ Hs).
Defined.

Lemma serialize_doc_keys_witness :
  launch_handed_out ≠ ∅ ∧
  serialize_doc (Some launch_handed_out) = Some launch_serialized ∧
  dom launch_serialized =
    dom launch_handed_out ∖ {["_id"]} ∪ id_key (launch_handed_out !! "_id") ∧
  id_key (launch_handed_out !! "_id") = {["id"]}.
Proof.
  assert (launch_handed_out ≠ ∅) as Hne.
  { apply (changes_nonempty _ "name" (VStr "Launch")). evaluate. }
  assert (serialize_doc (Some launch_handed_out) = Some launch_serialized) as Hs by evaluate.
  split; [exact Hne|]. split; [exact Hs|].
  split; [exact (serialize_doc_keys _ _ Hne Hs)|evaluate].
Defined.

Lemma stored_id_in_response_witness :
  ProjectOut_of launch_handed_out = Some launch_project ∧
  po_id launch_project = ObjectId_str (ObjectId_of_str launch_id).
Proof.
  assert (ProjectOut_of launch_handed_out = Some launch_project) as Ho by evaluate.
  split; [exact Ho|].
  exact (stored_id_in_response (ObjectId_of_str launch_id) launch_doc launch_project Ho).
Defined.

Lemma validation_ignores_other_keys_witness :
  ("created_at" ∉ ProjectUpdate_fields) ∧
  ProjectCreate_validate (<["created_at" := VStr "1999"]> {["name" := VStr "Launch"]})
    = ProjectCreate_validate {["name" := VStr "Launch"]} ∧
  ProjectUpdate_validate (<["created_at" := VStr "1999"]> {["name" := VStr "Launch"]})
    = ProjectUpdate_validate {["name" := VStr "Launch"]}.
Proof.
  assert ("created_at" ∉ ProjectUpdate_fields) as Hk by evaluate.
  split; [exact Hk|].
  exact (validation_ignores_other_keys {["name" := VStr "Launch"]} "created_at"
           (VStr "1999") Hk).
Defined.

Lemma ProjectCreate_round_trip_witness :
  ProjectCreate_validate {["name" := VStr "Launch"]} = Some launch_payload ∧
  ProjectCreate_validate (ProjectCreate_model_dump launch_payload) = Some launch_payload ∧
  is_Some (ProjectCreate_model_dump launch_payload !! "due_date").
Proof.
  assert (ProjectCreate_validate {["name" := VStr "Launch"]} = Some launch_payload) as Hp
    by evaluate.
  split; [exact Hp|].
  destruct (ProjectCreate_round_trip _ _ Hp) as [Hrt Hkeys].
  split; [exact Hrt|]. apply Hkeys. evaluate.
Defined.

Lemma ProjectUpdate_round_trip_witness :
  ProjectUpdate_validate {["status" := VStr "completed"; "extra" := VInt 1]}
    = Some status_completed ∧
  ProjectUpdate_validate (ProjectUpdate_model_dump_exclude_unset status_completed)
    = Some status_completed.
Proof.
  assert (ProjectUpdate_validate {["status" := VStr "completed"; "extra" := VInt 1]}
            = Some status_completed) as Hp by evaluate.
  split; [exact Hp|]. exact (ProjectUpdate_round_trip _ _ Hp).
Defined.

Lemma create_body_is_update_body_witness :
  ProjectCreate_validate {["name" := VStr "Launch"]} = Some launch_payload ∧
  is_Some (ProjectUpdate_validate {["name" := VStr "Launch"]}) ∧
  ProjectUpdate_validate (ProjectCreate_model_dump launch_payload)
    = Some (as_update launch_payload).
Proof.
  assert (ProjectCreate_validate {["name" := VStr "Launch"]} = Some launch_payload) as Hp
    by evaluate.
  split; [exact Hp|]. exact (create_body_is_update_body _ _ Hp).
Defined.

Lemma update_project_keeps_witness :
  db (at_time later w1) = Some db1 ∧
  db_project db1 !! ObjectId_of_str launch_id = Some launch_doc ∧
  ("created_at" ∉ ProjectUpdate_fields) ∧
  ∃ d' doc',
    db (update_project launch_id status_completed (at_time later w1)).2 = Some d' ∧
    dom (db_project d') = dom (db_project db1) ∧
    db_project d' !! ObjectId_of_str launch_id = Some doc' ∧
    doc' !! "created_at" = launch_doc !! "created_at".
Proof.
  assert (db (at_time later w1) = Some db1) as Hdb by evaluate.
  assert (db_project db1 !! ObjectId_of_str launch_id = Some launch_doc) as Hl by evaluate.
  assert ("created_at" ∉ ProjectUpdate_fields) as Hk by evaluate.
  split; [exact Hdb|]. split; [exact Hl|]. split; [exact Hk|].
  destruct (update_project_keeps launch_id status_completed (at_time later w1) db1 Hdb)
    as (d' & Hdb' & Hdom & Hkeep).
  destruct (Hkeep _ _ "created_at" Hl Hk) as (doc' & Hdoc' & Hsame); [discriminate|].
  exists d', doc'. split; [exact Hdb'|]. split; [exact Hdom|]. split; [exact Hdoc'|exact Hsame].
Defined.

Lemma update_project_returns_stored_witness :
  (update_project launch_id status_completed (at_time later w1)).1 = inr completed_project ∧
  ∃ d' new,
    db (update_project launch_id status_completed (at_time later w1)).2 = Some d' ∧
    db_project d' !! ObjectId_of_str launch_id = Some new ∧
    ProjectOut_of (with_id (ObjectId_of_str launch_id) new) = Some completed_project.
Proof.
  assert ((update_project launch_id status_completed (at_time later w1)).1
            = inr completed_project) as Hout by evaluate.
  split; [exact Hout|]. exact (update_project_returns_stored _ _ _ _ Hout).
Defined.

Lemma update_name_null_500_witness :
  is_valid launch_id = true ∧
  db w1 = Some db1 ∧
  db_project db1 !! ObjectId_of_str launch_id = Some launch_doc ∧
  pu_name name_null = Some None ∧
  launch_doc !! "name" = Some (VStr "Launch") ∧
  status_of (update_project launch_id name_null w1).1 = 500%Z ∧
  ∃ d' new,
    db (update_project launch_id name_null w1).2 = Some d' ∧
    db_project d' !! ObjectId_of_str launch_id = Some new ∧
    new !! "name" = Some VNone.
Proof.
  assert (is_valid launch_id = true) as Hv by evaluate.
  assert (db w1 = Some db1) as Hdb by evaluate.
  assert (db_project db1 !! ObjectId_of_str launch_id = Some launch_doc) as Hl by evaluate.
  assert (pu_name name_null = Some None) as Hn by reflexivity.
  split; [exact Hv|]. split; [exact Hdb|]. split; [exact Hl|]. split; [exact Hn|].
  split; [evaluate|].
  exact (update_name_null_500 launch_id name_null w1 db1 launch_doc Hv Hdb Hl Hn).
Defined.

Lemma delete_project_frame_witness :
  db w1 = Some db1 ∧
  is_valid launch_id = true ∧
  is_Some (db_project db1 !! ObjectId_of_str launch_id) ∧
  ∃ d', db (delete_project launch_id w1).2 = Some d' ∧
        db_project d' !! ObjectId_of_str launch_id = None.
Proof.
  assert (db w1 = Some db1) as Hdb by evaluate.
  assert (is_valid launch_id = true) as Hv by evaluate.
  split; [exact Hdb|]. split; [exact Hv|]. split; [evaluate|].
  destruct (delete_project_frame launch_id w1 db1 Hdb) as (d' & Hdb' & _ & Hgone & _).
  exists d'. split; [exact Hdb'|exact (Hgone Hv)].
Defined.

Lemma update_after_delete_404_witness :
  is_valid launch_id = true ∧
  is_Some (db w1) ∧
  ProjectUpdate_model_dump_exclude_unset status_completed ≠ ∅ ∧
  (update_project launch_id status_completed w1).1 = inr
    {| po_name := "Launch"; po_description := None; po_status := "completed";
       po_owner_email := None; po_due_date := None; po_id := launch_id;
       po_created_at := Some (isoformat noon); po_updated_at := Some (isoformat noon) |} ∧
  (update_project launch_id status_completed (delete_project launch_id w1).2).1 =
    inl (HTTPException 404 "Project not found").
Proof.
  assert (is_valid launch_id = true) as Hv by evaluate.
  assert (is_Some (db w1)) as Hdb by evaluate.
  assert (ProjectUpdate_model_dump_exclude_unset status_completed ≠ ∅) as Hne.
  { apply (changes_nonempty _ "status" (VStr "completed")). evaluate. }
  split; [exact Hv|]. split; [exact Hdb|]. split; [exact Hne|]. split; [evaluate|].
  exact (update_after_delete_404 launch_id status_completed w1 Hv Hdb Hne).
Defined.

Lemma create_project_effect_witness :
  ProjectCreate_ok launch_payload ∧
  db w0 = Some empty_db ∧
  db_project empty_db !! oid_gen w0 (oid_count w0) = None ∧
  (create_project launch_payload w0).1 =
    inr (created_out launch_payload (oid_gen w0 (oid_count w0)) (clock w0)) ∧
  po_id (created_out launch_payload (oid_gen w0 (oid_count w0)) (clock w0)) = launch_id ∧
  calls (create_project launch_payload w0).2 =
    [InsertOne (created_doc launch_payload (clock w0)); FindOne (oid_gen w0 (oid_count w0))].
Proof.
  assert (db w0 = Some empty_db) as Hdb by reflexivity.
  assert (db_project empty_db !! oid_gen w0 (oid_count w0) = None) as Hfresh by evaluate.
  split; [exact launch_payload_ok|]. split; [exact Hdb|]. split; [exact Hfresh|].
  destruct (create_project_effect launch_payload w0 empty_db launch_payload_ok Hdb Hfresh)
    as (Hout & Hcalls & _).
  split; [exact Hout|]. split; [evaluate|exact Hcalls].
Defined.

Lemma delete_created_restores_witness :
  ProjectCreate_ok launch_payload ∧
  db w0 = Some empty_db ∧
  db_project empty_db !! oid_gen w0 (oid_count w0) = None ∧
  is_valid (ObjectId_str (oid_gen w0 (oid_count w0))) = true ∧
  ObjectId_of_str (ObjectId_str (oid_gen w0 (oid_count w0))) = oid_gen w0 (oid_count w0) ∧
  ∃ out, (create_project launch_payload w0).1 = inr out ∧
    (delete_project (po_id out) (create_project launch_payload w0).2).1 = inr true ∧
    db (delete_project (po_id out) (create_project launch_payload w0).2).2 = db w0.
Proof.
  assert (db w0 = Some empty_db) as Hdb by reflexivity.
  assert (db_project empty_db !! oid_gen w0 (oid_count w0) = None) as Hfresh by evaluate.
  assert (is_valid (ObjectId_str (oid_gen w0 (oid_count w0))) = true) as Hv by evaluate.
  assert (ObjectId_of_str (ObjectId_str (oid_gen w0 (oid_count w0)))
            = oid_gen w0 (oid_count w0)) as Hrt by evaluate.
  split; [exact launch_payload_ok|]. split; [exact Hdb|]. split; [exact Hfresh|].
  split; [exact Hv|]. split; [exact Hrt|].
  exact (delete_created_restores launch_payload w0 empty_db launch_payload_ok Hdb Hfresh
           Hv Hrt).
Defined.

Lemma update_created_reaches_witness :
  ProjectCreate_ok launch_payload ∧
  db w0 = Some empty_db ∧
  db_project empty_db !! oid_gen w0 (oid_count w0) = None ∧
  is_valid (ObjectId_str (oid_gen w0 (oid_count w0))) = true ∧
  ObjectId_of_str (ObjectId_str (oid_gen w0 (oid_count w0))) = oid_gen w0 (oid_count w0) ∧
  ProjectUpdate_model_dump_exclude_unset status_completed ≠ ∅ ∧
  ∃ out, (create_project launch_payload w0).1 = inr out ∧
    status_of (update_project (po_id out) status_completed
                 (create_project launch_payload w0).2).1 ≠ 404%Z.
Proof.
  assert (db w0 = Some empty_db) as Hdb by reflexivity.
  assert (db_project empty_db !! oid_gen w0 (oid_count w0) = None) as Hfresh by evaluate.
  assert (is_valid (ObjectId_str (oid_gen w0 (oid_count w0))) = true) as Hv by evaluate.
  assert (ObjectId_of_str (ObjectId_str (oid_gen w0 (oid_count w0)))
            = oid_gen w0 (oid_count w0)) as Hrt by evaluate.
  assert (ProjectUpdate_model_dump_exclude_unset status_completed ≠ ∅) as Hne.
  { apply (changes_nonempty _ "status" (VStr "completed")). evaluate. }
  split; [exact launch_payload_ok|]. split; [exact Hdb|]. split; [exact Hfresh|].
  split; [exact Hv|]. split; [exact Hrt|]. split; [exact Hne|].
  destruct (update_created_reaches launch_payload status_completed w0 empty_db
              launch_payload_ok Hdb Hfresh Hv Hrt Hne) as (out & Hout & _ & H404 & _).
  exists out. split; [exact Hout|exact H404].
Defined.

Lemma list_projects_ids_witness :
  db w1 = Some db1 ∧
  (list_projects None w1).1 = inr [launch_project] ∧
  length [launch_project] = length (fetched 100 (db_project db1)) ∧
  po_id <$> [launch_project] =
    (λ kv, ObjectId_str kv.1) <$> take (Z.to_nat 100) (map_to_list (db_project db1)).
Proof.
  assert (db w1 = Some db1) as Hdb by evaluate.
  assert ((list_projects None w1).1 = inr [launch_project]) as Hl by evaluate.
  split; [exact Hdb|]. split; [exact Hl|].
  exact (list_projects_ids None w1 db1 [launch_project] Hdb Hl).
Defined.

End CoverageWitnesses.
